(** * Insecure chttp2 client channel creation
    src/core/ext/transport/chttp2/client/insecure/channel_create.c

    The file defines a connector (an asynchronous connection attempt driven by
    callbacks), the client channel factory that builds one connector per
    subchannel, the pointer vtable under which the factory travels inside the
    channel args, and the public entry point grpc_insecure_channel_create.

    The C code is embedded as functions of a state-and-error monad over an
    explicit heap.  Calls into other parts of the library are recorded in a
    trace; asynchronous collaborators additionally leave a pending operation
    that the environment completes later. *)

From Stdlib Require Import ZArith NArith String List Lia.
From stdpp Require Import base option list gmap strings.

Local Open Scope Z_scope.

(** ** Plain data *)

(** Addresses of objects that are only passed around.  [NULL] is address 0. *)
Abbreviation ptr := N (only parsing).
Definition NULL : ptr := 0%N.

Definition is_null (p : ptr) : bool := (p =? NULL)%N.

(** grpc_error: the empty error is the distinguished value GRPC_ERROR_NONE. *)
Inductive grpc_error :=
| GRPC_ERROR_NONE
| GRPC_ERROR_CREATE (desc : string).

(** [error != GRPC_ERROR_NONE] *)
Definition error_is_set (error : grpc_error) : bool :=
  match error with
  | GRPC_ERROR_NONE => false
  | GRPC_ERROR_CREATE _ => true
  end.

Record gpr_timespec := {
  tv_sec : Z;
  tv_nsec : Z;
  clock_type : Z
}.

Definition grpc_slice := list Byte.byte.
Definition grpc_slice_buffer := list grpc_slice.

(** Modelled from the spec: the macro GRPC_SLICE_IS_EMPTY is declared in
    grpc/slice.h; an initial connect string is empty when it has no bytes. *)
Definition GRPC_SLICE_IS_EMPTY (s : grpc_slice) : bool :=
  (length s =? 0)%nat.

(** Functions that this file installs in closures.  A function pointer of the
    caller is known by its address only. *)
Inductive grpc_iomgr_cb_func :=
| Fn_connected
| Fn_on_initial_connect_string_sent
| Fn_external (addr : ptr).

(** grpc_closure: [cb] may be a null function pointer. *)
Record grpc_closure := {
  cb : option grpc_iomgr_cb_func;
  cb_arg : ptr
}.

Definition grpc_closure_zero : grpc_closure := {| cb := None; cb_arg := NULL |}.

(** The completion function handed to the handshake manager. *)
Inductive grpc_handshaker_done_cb :=
| Fn_on_handshake_done.

(** ** Channel args: the options bag *)

(** The live objects that pointer-valued args refer to. *)
Abbreviation user_objects := (gset N) (only parsing).

(** grpc_arg_pointer_vtable: copy, destroy and compare for a pointer value.
    copy returns the pointer to store in the copied bag. *)
Record grpc_arg_pointer_vtable := {
  copy : ptr → user_objects → ptr * user_objects;
  destroy : ptr → user_objects → user_objects;
  cmp : ptr → ptr → Z
}.

(** The tagged union grpc_arg.value together with grpc_arg.type. *)
Inductive grpc_arg_value :=
| GRPC_ARG_STRING (s : string)
| GRPC_ARG_INTEGER (i : Z)
| GRPC_ARG_POINTER (p : ptr) (vtable : grpc_arg_pointer_vtable).

Record grpc_arg := {
  key : string;
  value : grpc_arg_value
}.

(** A [grpc_channel_args *] is [None] when null. *)
Abbreviation grpc_channel_args := (list grpc_arg) (only parsing).

(** ** Connect arguments and results *)

Record grpc_connect_in_args := {
  interested_parties : ptr;
  addr : ptr;
  deadline : gpr_timespec;
  channel_args : option grpc_channel_args;
  initial_connect_string : grpc_slice
}.

(** grpc_connect_out_args; its fields are [transport] and [channel_args] in C. *)
Record grpc_connect_out_args := {
  out_transport : ptr;
  out_channel_args : option grpc_channel_args
}.

(** [memset(result, 0, sizeof( *result))] *)
Definition grpc_connect_out_args_zero : grpc_connect_out_args :=
  {| out_transport := NULL; out_channel_args := None |}.

Definition gpr_timespec_zero : gpr_timespec :=
  {| tv_sec := 0; tv_nsec := 0; clock_type := 0 |}.

Definition grpc_connect_in_args_zero : grpc_connect_in_args :=
  {| interested_parties := NULL; addr := NULL; deadline := gpr_timespec_zero;
     channel_args := None; initial_connect_string := [] |}.

(** ** The connector *)

(** The only connector vtable of this file, named by its address. *)
Inductive grpc_connector_vtable_ptr :=
| Addr_connector_vtable.

Record connector := {
  base_vtable : option grpc_connector_vtable_ptr;
  refs : Z;
  notify : option grpc_closure;
  args : grpc_connect_in_args;
  result : ptr;
  initial_string_sent : grpc_closure;
  initial_string_buffer : grpc_slice_buffer;
  tcp : ptr;
  connected_closure : grpc_closure;
  handshake_mgr : ptr
}.

(** [memset(c, 0, sizeof( *c))] *)
Definition connector_zero : connector :=
  {| base_vtable := None; refs := 0; notify := None;
     args := grpc_connect_in_args_zero; result := NULL;
     initial_string_sent := grpc_closure_zero; initial_string_buffer := [];
     tcp := NULL; connected_closure := grpc_closure_zero;
     handshake_mgr := NULL |}.

Definition set_base_vtable (v : option grpc_connector_vtable_ptr) (c : connector) : connector :=
  {| base_vtable := v; refs := refs c; notify := notify c; args := args c;
     result := result c; initial_string_sent := initial_string_sent c;
     initial_string_buffer := initial_string_buffer c; tcp := tcp c;
     connected_closure := connected_closure c; handshake_mgr := handshake_mgr c |}.

Definition set_refs (v : Z) (c : connector) : connector :=
  {| base_vtable := base_vtable c; refs := v; notify := notify c; args := args c;
     result := result c; initial_string_sent := initial_string_sent c;
     initial_string_buffer := initial_string_buffer c; tcp := tcp c;
     connected_closure := connected_closure c; handshake_mgr := handshake_mgr c |}.

Definition set_notify (v : option grpc_closure) (c : connector) : connector :=
  {| base_vtable := base_vtable c; refs := refs c; notify := v; args := args c;
     result := result c; initial_string_sent := initial_string_sent c;
     initial_string_buffer := initial_string_buffer c; tcp := tcp c;
     connected_closure := connected_closure c; handshake_mgr := handshake_mgr c |}.

Definition set_args (v : grpc_connect_in_args) (c : connector) : connector :=
  {| base_vtable := base_vtable c; refs := refs c; notify := notify c; args := v;
     result := result c; initial_string_sent := initial_string_sent c;
     initial_string_buffer := initial_string_buffer c; tcp := tcp c;
     connected_closure := connected_closure c; handshake_mgr := handshake_mgr c |}.

Definition set_result (v : ptr) (c : connector) : connector :=
  {| base_vtable := base_vtable c; refs := refs c; notify := notify c; args := args c;
     result := v; initial_string_sent := initial_string_sent c;
     initial_string_buffer := initial_string_buffer c; tcp := tcp c;
     connected_closure := connected_closure c; handshake_mgr := handshake_mgr c |}.

Definition set_initial_string_sent (v : grpc_closure) (c : connector) : connector :=
  {| base_vtable := base_vtable c; refs := refs c; notify := notify c; args := args c;
     result := result c; initial_string_sent := v;
     initial_string_buffer := initial_string_buffer c; tcp := tcp c;
     connected_closure := connected_closure c; handshake_mgr := handshake_mgr c |}.

Definition set_initial_string_buffer (v : grpc_slice_buffer) (c : connector) : connector :=
  {| base_vtable := base_vtable c; refs := refs c; notify := notify c; args := args c;
     result := result c; initial_string_sent := initial_string_sent c;
     initial_string_buffer := v; tcp := tcp c;
     connected_closure := connected_closure c; handshake_mgr := handshake_mgr c |}.

Definition set_tcp (v : ptr) (c : connector) : connector :=
  {| base_vtable := base_vtable c; refs := refs c; notify := notify c; args := args c;
     result := result c; initial_string_sent := initial_string_sent c;
     initial_string_buffer := initial_string_buffer c; tcp := v;
     connected_closure := connected_closure c; handshake_mgr := handshake_mgr c |}.

Definition set_connected_closure (v : grpc_closure) (c : connector) : connector :=
  {| base_vtable := base_vtable c; refs := refs c; notify := notify c; args := args c;
     result := result c; initial_string_sent := initial_string_sent c;
     initial_string_buffer := initial_string_buffer c; tcp := tcp c;
     connected_closure := v; handshake_mgr := handshake_mgr c |}.

Definition set_handshake_mgr (v : ptr) (c : connector) : connector :=
  {| base_vtable := base_vtable c; refs := refs c; notify := notify c; args := args c;
     result := result c; initial_string_sent := initial_string_sent c;
     initial_string_buffer := initial_string_buffer c; tcp := tcp c;
     connected_closure := connected_closure c; handshake_mgr := v |}.

(** [c->notify == NULL] *)
Definition notify_is_NULL (c : connector) : bool :=
  match notify c with
  | None => true
  | Some _ => false
  end.

(** ** Handshakers, channels, status codes *)

(** Modelled from the spec: a handshaker is one step of the pipeline; the HTTP
    CONNECT variant "is configured with a proxy address and the logical
    target's name" (grpc_http_connect_handshaker_create is declared in
    http_connect_handshaker.h). *)
Inductive grpc_handshaker :=
| Http_connect_handshaker (proxy_server : string) (server_name : string)
| Other_handshaker (addr : ptr).

Definition grpc_http_connect_handshaker_create (proxy_server server_name : string)
  : grpc_handshaker :=
  Http_connect_handshaker proxy_server server_name.

Inductive grpc_status_code :=
| GRPC_STATUS_OK
| GRPC_STATUS_CANCELLED
| GRPC_STATUS_UNKNOWN
| GRPC_STATUS_INVALID_ARGUMENT
| GRPC_STATUS_DEADLINE_EXCEEDED
| GRPC_STATUS_NOT_FOUND
| GRPC_STATUS_ALREADY_EXISTS
| GRPC_STATUS_PERMISSION_DENIED
| GRPC_STATUS_RESOURCE_EXHAUSTED
| GRPC_STATUS_FAILED_PRECONDITION
| GRPC_STATUS_ABORTED
| GRPC_STATUS_OUT_OF_RANGE
| GRPC_STATUS_UNIMPLEMENTED
| GRPC_STATUS_INTERNAL
| GRPC_STATUS_UNAVAILABLE
| GRPC_STATUS_DATA_LOSS
| GRPC_STATUS_UNAUTHENTICATED.

(** Modelled from the spec: a channel is either a channel built by
    grpc_channel_create (known by its address) or a lame channel, "a valid,
    non-null channel object whose every call immediately fails" with the
    status and message it was created with (grpc_lame_client_channel_create is
    declared in grpc.h). *)
Inductive grpc_channel :=
| Client_channel (addr : ptr)
| Lame_client_channel (target : string) (error_code : grpc_status_code)
    (error_message : string).

Inductive grpc_channel_stack_type :=
| GRPC_CLIENT_CHANNEL
| GRPC_CLIENT_SUBCHANNEL
| GRPC_CLIENT_LAME_CHANNEL
| GRPC_CLIENT_DIRECT_CHANNEL
| GRPC_SERVER_CHANNEL.

Inductive grpc_client_channel_type :=
| GRPC_CLIENT_CHANNEL_TYPE_REGULAR
| GRPC_CLIENT_CHANNEL_TYPE_LOAD_BALANCING.

Record grpc_subchannel_args := {
  sc_args : option grpc_channel_args;
  sc_addr : ptr;
  server_name : string
}.

(** Modelled from the spec: create_subchannel "hands the Connector to
    subchannel construction"; the subchannel is known by the connector it
    holds and the args it was built from (grpc_subchannel_create is declared
    in subchannel.h). *)
Record grpc_subchannel := {
  sc_connector : ptr;
  sc_create_args : grpc_subchannel_args
}.

(** ** Heap, trace and pending operations *)

Inductive object :=
| Obj_connector (c : connector)
| Obj_connect_out_args (r : grpc_connect_out_args)
| Obj_handshake_manager (hs : list grpc_handshaker).

(** Calls that leave this file, in the order they are made. *)
Inductive event :=
| Ev_gpr_ref (refs_of : ptr)
| Ev_gpr_unref (refs_of : ptr)
| Ev_gpr_free (p : ptr)
| Ev_gpr_free_string (s : string)
| Ev_handshake_manager_destroy (mgr : ptr)
| Ev_tcp_client_connect (closure : grpc_closure) (ep_of : ptr)
    (interested_parties : ptr) (channel_args : option grpc_channel_args)
    (addr : ptr) (deadline : gpr_timespec)
| Ev_endpoint_write (ep : ptr) (slices : grpc_slice_buffer) (cb : grpc_closure)
| Ev_handshake_manager_do_handshake (mgr : ptr) (endpoint : ptr)
    (channel_args : option grpc_channel_args) (deadline : gpr_timespec)
    (acceptor : ptr) (on_done : grpc_handshaker_done_cb) (user_data : ptr)
| Ev_create_chttp2_transport (channel_args : option grpc_channel_args)
    (ep : ptr) (is_client : Z)
| Ev_chttp2_transport_start_reading (transport : ptr) (read_buffer : ptr)
| Ev_channel_args_destroy (a : option grpc_channel_args)
| Ev_error_ref (error : grpc_error)
| Ev_exec_ctx_sched (closure : option grpc_closure) (error : grpc_error)
| Ev_external_cb (fn : ptr) (arg : ptr) (error : grpc_error)
| Ev_subchannel_create (connector : ptr) (args : grpc_subchannel_args)
| Ev_channel_create (target : string) (args : option grpc_channel_args)
    (channel_stack_type : grpc_channel_stack_type)
| Ev_lame_client_channel_create (target : string)
    (error_code : grpc_status_code) (error_message : string)
| Ev_exec_ctx_finish.

(** Asynchronous operations that were started and have not completed. *)
Inductive pending_op :=
| Pending_tcp_client_connect (closure : grpc_closure) (ep_of : ptr)
| Pending_endpoint_write (cb : grpc_closure)
| Pending_do_handshake (on_done : grpc_handshaker_done_cb) (user_data : ptr).

Record world := {
  heap : gmap N object;
  objects : gset N;
  pending : list pending_op;
  trace : list event
}.

Definition set_heap (h : gmap N object) (w : world) : world :=
  {| heap := h; objects := objects w; pending := pending w; trace := trace w |}.

Definition set_objects (o : gset N) (w : world) : world :=
  {| heap := heap w; objects := o; pending := pending w; trace := trace w |}.

Definition set_pending (l : list pending_op) (w : world) : world :=
  {| heap := heap w; objects := objects w; pending := l; trace := trace w |}.

Definition set_trace (t : list event) (w : world) : world :=
  {| heap := heap w; objects := objects w; pending := pending w; trace := t |}.

(** ** The monad: state, assertion failure, invalid access *)

Inductive outcome (A : Type) :=
| Ok (a : A) (w : world)
| Abort       (* a GPR_ASSERT failed: the process is terminated *)
| Fault.      (* access through a null or dangling pointer *)
Arguments Ok {A} a w.
Arguments Abort {A}.
Arguments Fault {A}.

Definition M (A : Type) : Type := world → outcome A.

#[global] Instance M_ret : MRet M := λ A a w, Ok a w.

#[global] Instance M_bind : MBind M := λ A B f m w,
  match m w with
  | Ok a w' => f a w'
  | Abort => Abort
  | Fault => Fault
  end.

Definition abort {A} : M A := λ _, Abort.
Definition fault {A} : M A := λ _, Fault.

Definition GPR_ASSERT (x : bool) : M unit :=
  if x then mret tt else abort.

Definition modify (f : world → world) : M unit :=
  λ w, Ok tt (f w).

Definition log (e : event) : M unit :=
  modify (λ w, set_trace (trace w ++ [e]) w).

Definition add_pending (op : pending_op) : M unit :=
  modify (λ w, set_pending (pending w ++ [op]) w).

Definition get_connector (p : ptr) : M connector :=
  λ w, match heap w !! p with
       | Some (Obj_connector c) => Ok c w
       | _ => Fault
       end.

Definition update_connector (p : ptr) (f : connector → connector) : M unit :=
  c ← get_connector p;
  modify (λ w, set_heap (<[p := Obj_connector (f c)]> (heap w)) w).

Definition get_connect_out_args (p : ptr) : M grpc_connect_out_args :=
  λ w, match heap w !! p with
       | Some (Obj_connect_out_args r) => Ok r w
       | _ => Fault
       end.

Definition update_connect_out_args (p : ptr)
    (f : grpc_connect_out_args → grpc_connect_out_args) : M unit :=
  r ← get_connect_out_args p;
  modify (λ w, set_heap (<[p := Obj_connect_out_args (f r)]> (heap w)) w).

Definition get_handshake_manager (p : ptr) : M (list grpc_handshaker) :=
  λ w, match heap w !! p with
       | Some (Obj_handshake_manager hs) => Ok hs w
       | _ => Fault
       end.

(** gpr_malloc: a fresh non-null address, holding [o]. *)
Definition gpr_malloc (o : object) : M ptr :=
  λ w, let p := fresh ({[NULL]} ∪ dom (heap w)) in
       Ok p (set_heap (<[p := o]> (heap w)) w).

Definition gpr_free (p : ptr) : M unit :=
  log (Ev_gpr_free p);;
  modify (λ w, set_heap (delete p (heap w)) w).

(** Modelled from the spec: gpr_ref and gpr_unref (grpc/support/sync.h) add
    and drop one reference; gpr_unref reports whether it dropped the last
    one ("the last release destroys ..."). *)
Definition gpr_ref (refs_of : ptr) : M unit :=
  log (Ev_gpr_ref refs_of);;
  update_connector refs_of (λ c, set_refs (refs c + 1) c).

Definition gpr_unref (refs_of : ptr) : M bool :=
  log (Ev_gpr_unref refs_of);;
  c ← get_connector refs_of;
  update_connector refs_of (set_refs (refs c - 1));;
  mret (refs c =? 1).

(** Modelled from the spec: the Handshake Manager is "an ordered sequence of
    Handshaker entries"; create yields the empty pipeline, add appends in
    insertion order, destroy releases the manager (handshaker.h). *)
Definition grpc_handshake_manager_create : M ptr :=
  gpr_malloc (Obj_handshake_manager []).

Definition grpc_handshake_manager_add (mgr : ptr) (handshaker : grpc_handshaker) : M unit :=
  hs ← get_handshake_manager mgr;
  modify (λ w, set_heap (<[mgr := Obj_handshake_manager (hs ++ [handshaker])]> (heap w)) w).

Definition grpc_handshake_manager_destroy (mgr : ptr) : M unit :=
  log (Ev_handshake_manager_destroy mgr);;
  modify (λ w, set_heap (delete mgr (heap w)) w).

(** Modelled from the spec: do_handshake "runs the pipeline asynchronously and
    invokes on_done ... exactly once"; the call is recorded and its completion
    is left pending. *)
Definition grpc_handshake_manager_do_handshake (mgr endpoint : ptr)
    (channel_args : option grpc_channel_args) (deadline : gpr_timespec)
    (acceptor : ptr) (on_done : grpc_handshaker_done_cb) (user_data : ptr) : M unit :=
  log (Ev_handshake_manager_do_handshake mgr endpoint channel_args deadline
         acceptor on_done user_data);;
  add_pending (Pending_do_handshake on_done user_data).

(** Modelled from the spec: the raw connect collaborator is asynchronous; "on
    completion sets endpoint_out to a live endpoint or leaves it empty on
    failure, and invokes on_connected with an error value" (tcp_client.h).
    [ep_of] is the connector whose [tcp] field is the out-parameter. *)
Definition grpc_tcp_client_connect (closure : grpc_closure) (ep_of : ptr)
    (interested_parties : ptr) (channel_args : option grpc_channel_args)
    (addr : ptr) (deadline : gpr_timespec) : M unit :=
  log (Ev_tcp_client_connect closure ep_of interested_parties channel_args addr deadline);;
  add_pending (Pending_tcp_client_connect closure ep_of).

(** Modelled from the spec: an endpoint write is asynchronous and runs its
    closure when it completes, with the outcome of the write (endpoint.h). *)
Definition grpc_endpoint_write (ep : ptr) (slices : grpc_slice_buffer)
    (cb : grpc_closure) : M unit :=
  log (Ev_endpoint_write ep slices cb);;
  add_pending (Pending_endpoint_write cb).

(** grpc_exec_ctx_sched queues the closure on the execution context, which
    runs every queued closure once when it is flushed. *)
Definition grpc_exec_ctx_sched (closure : option grpc_closure) (error : grpc_error) : M unit :=
  log (Ev_exec_ctx_sched closure error).

(** GRPC_ERROR_REF takes a reference on the error and yields the same error. *)
Definition GRPC_ERROR_REF (error : grpc_error) : M grpc_error :=
  log (Ev_error_ref error);;
  mret error.

Definition grpc_chttp2_transport_start_reading (transport read_buffer : ptr) : M unit :=
  log (Ev_chttp2_transport_start_reading transport read_buffer).

(** Modelled from the spec: pointer-valued entries of the options bag "carry
    an explicit copy/destroy/compare vtable so the options bag can be
    deep-copied"; destroying a bag destroys each pointer value through its
    vtable, and a null bag is left alone (channel_args.h). *)
Definition destroy_arg (a : grpc_arg) (o : user_objects) : user_objects :=
  match value a with
  | GRPC_ARG_POINTER p vtable => destroy vtable p o
  | _ => o
  end.

Definition destroy_args (a : option grpc_channel_args) (o : user_objects) : user_objects :=
  match a with
  | Some l => fold_left (λ o' x, destroy_arg x o') l o
  | None => o
  end.

Definition grpc_channel_args_destroy (a : option grpc_channel_args) : M unit :=
  log (Ev_channel_args_destroy a);;
  modify (λ w, set_objects (destroy_args a (objects w)) w).

Definition copy_arg (a : grpc_arg) (o : user_objects) : grpc_arg * user_objects :=
  match value a with
  | GRPC_ARG_POINTER p vtable =>
      let '(p', o') := copy vtable p o in
      ({| key := key a; value := GRPC_ARG_POINTER p' vtable |}, o')
  | _ => (a, o)
  end.

Fixpoint copy_arg_list (l : list grpc_arg) (o : user_objects)
  : list grpc_arg * user_objects :=
  match l with
  | [] => ([], o)
  | a :: l' =>
      let '(a', o1) := copy_arg a o in
      let '(l'', o2) := copy_arg_list l' o1 in
      (a' :: l'', o2)
  end.

Definition grpc_channel_args_copy_and_add (src : option grpc_channel_args)
    (to_add : list grpc_arg) : M (option grpc_channel_args) :=
  λ w, let '(dst, o) := copy_arg_list (default [] src ++ to_add) (objects w) in
       Ok (Some dst) (set_objects o w).

Definition grpc_channel_args_copy (src : option grpc_channel_args)
  : M (option grpc_channel_args) :=
  grpc_channel_args_copy_and_add src [].

Section Channel_create.

Set Default Proof Using "Type".

(** What the collaborators outside this file answer. *)

(** The transport that grpc_create_chttp2_transport builds for given
    arguments; NULL when construction fails (chttp2_transport.h). *)
Variable chttp2_transport_of : option grpc_channel_args → ptr → Z → ptr.

(** The answer of grpc_get_http_proxy_server: the proxy configured for the
    process, if any. *)
Variable http_proxy_server : option string.

(** The channel that grpc_channel_create builds, or none (channel.h). *)
Variable channel_of :
  string → option grpc_channel_args → grpc_channel_stack_type → ptr → option grpc_channel.

(** The address of the static [client_channel_factory], and the keys
    GRPC_ARG_SERVER_URI and GRPC_ARG_CLIENT_CHANNEL_FACTORY of
    grpc_types.h. *)
Variable client_channel_factory : ptr.
Variable GRPC_ARG_SERVER_URI : string.
Variable GRPC_ARG_CLIENT_CHANNEL_FACTORY : string.

(** ** connector *)

Definition grpc_create_chttp2_transport (channel_args : option grpc_channel_args)
    (ep : ptr) (is_client : Z) : M ptr :=
  log (Ev_create_chttp2_transport channel_args ep is_client);;
  mret (chttp2_transport_of channel_args ep is_client).

Definition connector_ref (con : ptr) : M unit :=
  let c := con in
  gpr_ref c.

Definition connector_unref (con : ptr) : M unit :=
  let c := con in
  last ← gpr_unref c;
  if (last : bool) then
    (* c->initial_string_buffer does not need to be destroyed *)
    x ← get_connector c;
    grpc_handshake_manager_destroy (handshake_mgr x);;
    gpr_free c
  else mret tt.

Definition on_initial_connect_string_sent (arg : ptr) (error : grpc_error) : M unit :=
  connector_unref arg.

Definition on_handshake_done (endpoint : ptr) (args : option grpc_channel_args)
    (read_buffer : ptr) (user_data : ptr) (error : grpc_error) : M unit :=
  let c := user_data in
  (if error_is_set error then
     grpc_channel_args_destroy args;;
     gpr_free read_buffer
   else
     x ← get_connector c;
     t ← grpc_create_chttp2_transport args endpoint 1;
     update_connect_out_args (result x)
       (λ r, {| out_transport := t; out_channel_args := out_channel_args r |});;
     r ← get_connect_out_args (result x);
     GPR_ASSERT (negb (is_null (out_transport r)));;
     grpc_chttp2_transport_start_reading (out_transport r) read_buffer;;
     update_connect_out_args (result x)
       (λ r, {| out_transport := out_transport r; out_channel_args := args |}));;
  x ← get_connector c;
  let notify := notify x in
  update_connector c (set_notify None);;
  grpc_exec_ctx_sched notify error.

Definition connected (arg : ptr) (error : grpc_error) : M unit :=
  let c := arg in
  x ← get_connector c;
  let tcp := tcp x in
  if negb (is_null tcp) then
    if negb (GRPC_SLICE_IS_EMPTY (initial_connect_string (args x))) then
      update_connector c (set_initial_string_sent
        {| cb := Some Fn_on_initial_connect_string_sent; cb_arg := c |});;
      update_connector c (set_initial_string_buffer []);;
      update_connector c (λ y, set_initial_string_buffer
        (initial_string_buffer y ++ [initial_connect_string (args y)]) y);;
      connector_ref arg;;
      y ← get_connector c;
      grpc_endpoint_write tcp (initial_string_buffer y) (initial_string_sent y)
    else
      grpc_handshake_manager_do_handshake (handshake_mgr x) tcp
        (channel_args (args x)) (deadline (args x)) NULL (* acceptor *)
        Fn_on_handshake_done c
  else
    update_connect_out_args (result x) (λ _, grpc_connect_out_args_zero);;
    let notify := notify x in
    update_connector c (set_notify None);;
    e ← GRPC_ERROR_REF error;
    grpc_exec_ctx_sched notify e.

Definition connector_shutdown (con : ptr) : M unit := mret tt.

Definition connector_connect (con : ptr) (args : grpc_connect_in_args)
    (result : ptr) (notify : option grpc_closure) : M unit :=
  let c := con in
  x ← get_connector c;
  GPR_ASSERT (notify_is_NULL x);;
  n ← from_option mret fault notify;
  GPR_ASSERT (match cb n with Some _ => true | None => false end);;
  update_connector c (set_notify notify);;
  update_connector c (set_args args);;
  update_connector c (set_result result);;
  update_connector c (set_tcp NULL);;
  update_connector c (set_connected_closure {| cb := Some Fn_connected; cb_arg := c |});;
  y ← get_connector c;
  grpc_tcp_client_connect (connected_closure y) c
    (interested_parties args) (channel_args args) (addr args) (deadline args).

(** The connector vtable:
    [{connector_ref, connector_unref, connector_shutdown, connector_connect}]. *)
Record grpc_connector_vtable := {
  vt_ref : ptr → M unit;
  vt_unref : ptr → M unit;
  vt_shutdown : ptr → M unit;
  vt_connect : ptr → grpc_connect_in_args → ptr → option grpc_closure → M unit
}.

Definition connector_vtable : grpc_connector_vtable :=
  {| vt_ref := connector_ref; vt_unref := connector_unref;
     vt_shutdown := connector_shutdown; vt_connect := connector_connect |}.

Definition vtable_at (v : grpc_connector_vtable_ptr) : grpc_connector_vtable :=
  match v with
  | Addr_connector_vtable => connector_vtable
  end.

(** grpc_connector_ref and grpc_connector_unref (connector.h) call through
    the vtable stored in the connector. *)
Definition grpc_connector_ref (con : ptr) : M unit :=
  x ← get_connector con;
  v ← from_option mret fault (base_vtable x);
  vt_ref (vtable_at v) con.

Definition grpc_connector_unref (con : ptr) : M unit :=
  x ← get_connector con;
  v ← from_option mret fault (base_vtable x);
  vt_unref (vtable_at v) con.

(** ** The environment: completions of the asynchronous operations *)

(** Running a closure calls the function stored in it. *)
Definition grpc_closure_run (closure : grpc_closure) (error : grpc_error) : M unit :=
  match cb closure with
  | Some Fn_connected => connected (cb_arg closure) error
  | Some Fn_on_initial_connect_string_sent =>
      on_initial_connect_string_sent (cb_arg closure) error
  | Some (Fn_external fn) => log (Ev_external_cb fn (cb_arg closure) error)
  | None => fault
  end.

Definition grpc_handshaker_done_run (on_done : grpc_handshaker_done_cb)
    (endpoint : ptr) (args : option grpc_channel_args) (read_buffer : ptr)
    (user_data : ptr) (error : grpc_error) : M unit :=
  match on_done with
  | Fn_on_handshake_done => on_handshake_done endpoint args read_buffer user_data error
  end.

(** What the collaborators report when an operation completes. *)
Inductive completion :=
| Tcp_client_connect_done (ep : ptr) (error : grpc_error)
| Endpoint_write_done (error : grpc_error)
| Handshake_done (endpoint : ptr) (args : option grpc_channel_args)
    (read_buffer : ptr) (error : grpc_error).

Definition completes (k : completion) (op : pending_op) : bool :=
  match k, op with
  | Tcp_client_connect_done _ _, Pending_tcp_client_connect _ _ => true
  | Endpoint_write_done _, Pending_endpoint_write _ => true
  | Handshake_done _ _ _ _, Pending_do_handshake _ _ => true
  | _, _ => false
  end.

(** The oldest pending operation that [k] completes, and the others. *)
Fixpoint take_pending (k : completion) (l : list pending_op)
  : option (pending_op * list pending_op) :=
  match l with
  | [] => None
  | op :: l' =>
      if completes k op then Some (op, l')
      else match take_pending k l' with
           | Some (op', l'') => Some (op', op :: l'')
           | None => None
           end
  end.

(** The callback that a completion runs.  The raw connect stores the
    endpoint (or NULL) in the out-parameter first. *)
Definition complete (k : completion) (op : pending_op) : M unit :=
  match k, op with
  | Tcp_client_connect_done ep error, Pending_tcp_client_connect closure ep_of =>
      update_connector ep_of (set_tcp ep);;
      grpc_closure_run closure error
  | Endpoint_write_done error, Pending_endpoint_write cb =>
      grpc_closure_run cb error
  | Handshake_done endpoint args read_buffer error, Pending_do_handshake on_done user_data =>
      grpc_handshaker_done_run on_done endpoint args read_buffer user_data error
  | _, _ => mret tt
  end.

(** One step of the environment; [None] when no such operation is pending. *)
Definition deliver (k : completion) (w : world) : option (outcome unit) :=
  match take_pending k (pending w) with
  | Some (op, rest) => Some (complete k op (set_pending rest w))
  | None => None
  end.

Fixpoint run (ks : list completion) (w : world) : option (outcome unit) :=
  match ks with
  | [] => Some (Ok tt w)
  | k :: ks' =>
      match deliver k w with
      | Some (Ok _ w') => run ks' w'
      | r => r
      end
  end.

(** How often the trace schedules a closure on the execution context. *)
Definition is_sched (e : event) : bool :=
  match e with
  | Ev_exec_ctx_sched _ _ => true
  | _ => false
  end.

Definition sched_count (t : list event) : nat :=
  length (List.filter is_sched t).

Definition is_do_handshake (e : event) : bool :=
  match e with
  | Ev_handshake_manager_do_handshake _ _ _ _ _ _ _ => true
  | _ => false
  end.

Definition do_handshake_count (t : list event) : nat :=
  length (List.filter is_do_handshake t).

(** ** client_channel_factory *)

Definition grpc_get_http_proxy_server : M (option string) :=
  mret http_proxy_server.

Definition gpr_free_string (s : string) : M unit :=
  log (Ev_gpr_free_string s).

(** Modelled from the spec: subchannel construction receives the connector
    and becomes one of its holders, so it takes a reference of its own. *)
Definition grpc_subchannel_create (con : ptr) (args : grpc_subchannel_args)
  : M grpc_subchannel :=
  log (Ev_subchannel_create con args);;
  grpc_connector_ref con;;
  mret {| sc_connector := con; sc_create_args := args |}.

Definition grpc_channel_create (target : string) (args : option grpc_channel_args)
    (channel_stack_type : grpc_channel_stack_type) (optional_transport : ptr)
  : M (option grpc_channel) :=
  log (Ev_channel_create target args channel_stack_type);;
  mret (channel_of target args channel_stack_type optional_transport).

Definition grpc_lame_client_channel_create (target : string)
    (error_code : grpc_status_code) (error_message : string)
  : M (option grpc_channel) :=
  log (Ev_lame_client_channel_create target error_code error_message);;
  mret (Some (Lame_client_channel target error_code error_message)).

Definition grpc_exec_ctx_finish : M unit :=
  log Ev_exec_ctx_finish.

Definition client_channel_factory_ref (cc_factory : ptr) : M unit := mret tt.

Definition client_channel_factory_unref (cc_factory : ptr) : M unit := mret tt.

Definition client_channel_factory_create_subchannel (cc_factory : ptr)
    (args : grpc_subchannel_args) : M grpc_subchannel :=
  c ← gpr_malloc (Obj_connector connector_zero);
  update_connector c (set_base_vtable (Some Addr_connector_vtable));;
  update_connector c (set_refs 1);;
  mgr ← grpc_handshake_manager_create;
  update_connector c (set_handshake_mgr mgr);;
  proxy_name ← grpc_get_http_proxy_server;
  match proxy_name with
  | Some name =>
      x ← get_connector c;
      grpc_handshake_manager_add (handshake_mgr x)
        (grpc_http_connect_handshaker_create name (server_name args));;
      gpr_free_string name
  | None => mret tt
  end;;
  s ← grpc_subchannel_create c args;
  grpc_connector_unref c;;
  mret s.

Definition client_channel_factory_create_channel (cc_factory : ptr)
    (target : string) (type : grpc_client_channel_type)
    (args : option grpc_channel_args) : M (option grpc_channel) :=
  grpc_channel_create target args GRPC_CLIENT_CHANNEL NULL.

Record grpc_client_channel_factory_vtable := {
  cf_ref : ptr → M unit;
  cf_unref : ptr → M unit;
  cf_create_subchannel : ptr → grpc_subchannel_args → M grpc_subchannel;
  cf_create_client_channel :
    ptr → string → grpc_client_channel_type → option grpc_channel_args →
    M (option grpc_channel)
}.

Definition client_channel_factory_vtable : grpc_client_channel_factory_vtable :=
  {| cf_ref := client_channel_factory_ref;
     cf_unref := client_channel_factory_unref;
     cf_create_subchannel := client_channel_factory_create_subchannel;
     cf_create_client_channel := client_channel_factory_create_channel |}.

(** grpc_client_channel_factory_unref (client_channel_factory.h) calls through
    the factory's vtable; the static factory carries the vtable above. *)
Definition grpc_client_channel_factory_unref (factory : ptr) : M unit :=
  cf_unref client_channel_factory_vtable factory.

Definition cc_factory_arg_copy (cc_factory : ptr) (o : user_objects)
  : ptr * user_objects :=
  (cc_factory, o).

Definition cc_factory_arg_destroy (cc_factory : ptr) (o : user_objects)
  : user_objects :=
  o.

Definition cc_factory_arg_cmp (cc_factory1 cc_factory2 : ptr) : Z :=
  if (cc_factory1 <? cc_factory2)%N then -1
  else if (cc_factory2 <? cc_factory1)%N then 1
  else 0.

Definition cc_factory_arg_vtable : grpc_arg_pointer_vtable :=
  {| copy := cc_factory_arg_copy;
     destroy := cc_factory_arg_destroy;
     cmp := cc_factory_arg_cmp |}.

(** ** grpc_insecure_channel_create *)

Definition grpc_insecure_channel_create (target : string)
    (args : option grpc_channel_args) (reserved : ptr) : M (option grpc_channel) :=
  (* GRPC_API_TRACE only logs the call *)
  GPR_ASSERT (is_null reserved);;
  let factory := client_channel_factory in
  (* Add channel args containing the server name and client channel factory. *)
  let new_args :=
    [ {| key := GRPC_ARG_SERVER_URI; value := GRPC_ARG_STRING target |};
      {| key := GRPC_ARG_CLIENT_CHANNEL_FACTORY;
         value := GRPC_ARG_POINTER factory cc_factory_arg_vtable |} ] in
  args_copy ← grpc_channel_args_copy_and_add args new_args;
  (* Create channel. *)
  channel ← client_channel_factory_create_channel factory target
              GRPC_CLIENT_CHANNEL_TYPE_REGULAR args_copy;
  (* Clean up. *)
  grpc_channel_args_destroy args_copy;;
  grpc_client_channel_factory_unref factory;;
  grpc_exec_ctx_finish;;
  match channel with
  | Some ch => mret (Some ch)
  | None =>
      grpc_lame_client_channel_create target GRPC_STATUS_INTERNAL
        "Failed to create client channel"
  end.

(** ** States of an attempt *)

(** The connector once [connector_connect] has stored the attempt. *)
Definition connecting (con : ptr) (args : grpc_connect_in_args) (result : ptr)
    (n : grpc_closure) (c : connector) : connector :=
  set_connected_closure {| cb := Some Fn_connected; cb_arg := con |}
    (set_tcp NULL (set_result result (set_args args (set_notify (Some n) c)))).

Definition connecting_world (con : ptr) (args : grpc_connect_in_args)
    (result : ptr) (n : grpc_closure) (c : connector) (w : world) : world :=
  {| heap := <[con := Obj_connector (connecting con args result n c)]> (heap w);
     objects := objects w;
     pending := pending w ++
       [Pending_tcp_client_connect {| cb := Some Fn_connected; cb_arg := con |} con];
     trace := trace w ++
       [Ev_tcp_client_connect {| cb := Some Fn_connected; cb_arg := con |} con
          (interested_parties args) (channel_args args) (addr args)
          (deadline args)] |}.

(** The connector after [connected] has prepared the initial-bytes write. *)
Definition writing_initial_bytes (arg : ptr) (c : connector) : connector :=
  set_refs (refs c + 1)
    (set_initial_string_buffer [initial_connect_string (args c)]
       (set_initial_string_sent
          {| cb := Some Fn_on_initial_connect_string_sent; cb_arg := arg |} c)).


(** Where an attempt on connector [con] stands: connecting, writing the
    initial bytes, handshaking, or at rest; [b] is the number of closures
    that had been scheduled when it started. *)
Definition attempt_inv (con : ptr) (b : nat) (w : world) : Prop :=
  (pending w = [Pending_tcp_client_connect
                  {| cb := Some Fn_connected; cb_arg := con |} con] ∧
   sched_count (trace w) = b) ∨
  (pending w = [Pending_endpoint_write
                  {| cb := Some Fn_on_initial_connect_string_sent;
                     cb_arg := con |}] ∧
   sched_count (trace w) = b) ∨
  (pending w = [Pending_do_handshake Fn_on_handshake_done con] ∧
   sched_count (trace w) = b) ∨
  (pending w = [] ∧ (sched_count (trace w) ≤ S b)%nat).

(** ** Further operations built from the source functions *)

(** [n] calls of connector_unref in a row. *)
Fixpoint connector_unref_n (n : nat) (con : ptr) : M unit :=
  match n with
  | O => mret tt
  | S k => connector_unref con;; connector_unref_n k con
  end.

(** [a] is a string or integer arg: its value carries no pointer. *)
Definition has_no_pointer (a : grpc_arg) : bool :=
  match value a with
  | GRPC_ARG_POINTER _ _ => false
  | _ => true
  end.

(** What an attempt on connector [con] keeps true at every step: the
    connector stays on the heap; its reference count is the one it started
    with, plus one while the initial-bytes write is pending; and as long as
    no closure has been scheduled beyond the [b] scheduled before, the result
    slot holds what it held. *)
Definition attempt_keeps (con result : ptr) (r0 : grpc_connect_out_args)
    (rc : Z) (b : nat) (w : world) : Prop :=
  ∃ c' : connector,
    heap w !! con = Some (Obj_connector c') ∧
    ((pending w = [Pending_tcp_client_connect
                     {| cb := Some Fn_connected; cb_arg := con |} con] ∧
      refs c' = rc ∧ sched_count (trace w) = b ∧
      heap w !! result = Some (Obj_connect_out_args r0)) ∨
     (pending w = [Pending_endpoint_write
                     {| cb := Some Fn_on_initial_connect_string_sent;
                        cb_arg := con |}] ∧
      refs c' = rc + 1 ∧ sched_count (trace w) = b ∧
      heap w !! result = Some (Obj_connect_out_args r0)) ∨
     (pending w = [Pending_do_handshake Fn_on_handshake_done con] ∧
      refs c' = rc ∧ sched_count (trace w) = b ∧
      heap w !! result = Some (Obj_connect_out_args r0)) ∨
     (pending w = [] ∧ refs c' = rc ∧
      (sched_count (trace w) = S b ∨
       sched_count (trace w) = b ∧
       heap w !! result = Some (Obj_connect_out_args r0)))).

(** ** Inputs used to exercise the model *)

Definition sample_closure : grpc_closure :=
  {| cb := Some (Fn_external 4096%N); cb_arg := 8192%N |}.

Definition sample_deadline : gpr_timespec :=
  {| tv_sec := 20; tv_nsec := 0; clock_type := 1 |}.

(** Connect arguments with an empty initial connect string. *)
Definition sample_in_args : grpc_connect_in_args :=
  {| interested_parties := 600%N; addr := 700%N; deadline := sample_deadline;
     channel_args := Some [ {| key := "k"; value := GRPC_ARG_INTEGER 1 |} ];
     initial_connect_string := [] |}.

(** Connect arguments with the one-byte initial connect string "x". *)
Definition sample_in_args_hello : grpc_connect_in_args :=
  {| interested_parties := 600%N; addr := 700%N; deadline := sample_deadline;
     channel_args := Some [ {| key := "k"; value := GRPC_ARG_INTEGER 1 |} ];
     initial_connect_string := [Byte.x78] |}.

(** An idle connector holding one reference, with handshake manager 200. *)
Definition sample_connector : connector :=
  set_handshake_mgr 200%N
    (set_refs 1 (set_base_vtable (Some Addr_connector_vtable) connector_zero)).

(** A transport collaborator that always builds the transport 900. *)
Definition sample_transport_of (channel_args : option grpc_channel_args)
    (ep : ptr) (is_client : Z) : ptr :=
  900%N.

(** A heap with that connector at 100, its manager at 200 and a result slot
    at 300. *)
Definition sample_world : world :=
  {| heap := <[100%N := Obj_connector sample_connector]>
             (<[200%N := Obj_handshake_manager []]>
             (<[300%N := Obj_connect_out_args
                           {| out_transport := 5%N; out_channel_args := None |}]> ∅));
     objects := ∅; pending := []; trace := [] |}.

(** The same heap during an attempt without initial connect string, after
    the raw connect has stored the endpoint 55 and [connected] has started the
    handshake. *)
Definition sample_connector_handshaking : connector :=
  set_tcp 55%N (connecting 100%N sample_in_args 300%N sample_closure sample_connector).

Definition sample_world_handshaking : world :=
  {| heap := <[100%N := Obj_connector sample_connector_handshaking]> (heap sample_world);
     objects := ∅;
     pending := [Pending_do_handshake Fn_on_handshake_done 100%N];
     trace := [] |}.

(** The heap after the raw connect has stored the endpoint 55, before
    [connected] runs, for an attempt with the initial connect string "x". *)
Definition sample_connector_connected_hello : connector :=
  set_tcp 55%N
    (connecting 100%N sample_in_args_hello 300%N sample_closure sample_connector).

Definition sample_world_connected_hello : world :=
  {| heap := <[100%N := Obj_connector sample_connector_connected_hello]>
             (heap sample_world);
     objects := ∅; pending := []; trace := [] |}.

(** A schedule for a whole attempt: the connect yields endpoint 55, the
    handshake returns endpoint 56, the sample channel args and the leftover
    read buffer 77, without error. *)
Definition sample_schedule : list completion :=
  [Tcp_client_connect_done 55%N GRPC_ERROR_NONE;
   Handshake_done 56%N (channel_args sample_in_args) 77%N GRPC_ERROR_NONE].

(** The sample heap after that schedule has run on an attempt with the
    sample connect args. *)
Definition sample_world_done : world :=
  {| heap := <[100%N := Obj_connector (set_notify None sample_connector_handshaking)]>
             (<[300%N := Obj_connect_out_args
                  {| out_transport := 900%N;
                     out_channel_args := channel_args sample_in_args |}]>
                (heap sample_world));
     objects := ∅;
     pending := [];
     trace :=
       [Ev_tcp_client_connect {| cb := Some Fn_connected; cb_arg := 100%N |}
          100%N 600%N (channel_args sample_in_args) 700%N sample_deadline;
        Ev_handshake_manager_do_handshake 200%N 55%N
          (channel_args sample_in_args) sample_deadline NULL
          Fn_on_handshake_done 100%N;
        Ev_create_chttp2_transport (channel_args sample_in_args) 56%N 1;
        Ev_chttp2_transport_start_reading 900%N 77%N;
        Ev_exec_ctx_sched (Some sample_closure) GRPC_ERROR_NONE] |}.

(** The sample heap of an attempt with the sample connect args once the
    connect has delivered endpoint 55: the handshake is pending. *)
Definition sample_world_handshake_pending : world :=
  {| heap := <[100%N := Obj_connector sample_connector_handshaking]>
             (heap sample_world);
     objects := ∅;
     pending := [Pending_do_handshake Fn_on_handshake_done 100%N];
     trace :=
       [Ev_tcp_client_connect {| cb := Some Fn_connected; cb_arg := 100%N |}
          100%N 600%N (channel_args sample_in_args) 700%N sample_deadline;
        Ev_handshake_manager_do_handshake 200%N 55%N
          (channel_args sample_in_args) sample_deadline NULL
          Fn_on_handshake_done 100%N] |}.


(** The sample heap after a handshake refused by the proxy. *)
Definition sample_world_refused : world :=
  {| heap := <[100%N := Obj_connector (set_notify None sample_connector_handshaking)]>
             (delete 77%N (heap sample_world_handshaking));
     objects := ∅;
     pending := [Pending_do_handshake Fn_on_handshake_done 100%N];
     trace := [Ev_channel_args_destroy None;
               Ev_gpr_free 77%N;
               Ev_exec_ctx_sched (Some sample_closure)
                 (GRPC_ERROR_CREATE "proxy refused")] |}.

(** The sample heap with two references on the connector. *)
Definition sample_world_two_refs : world :=
  {| heap := <[100%N := Obj_connector (set_refs 2 sample_connector)]>
             (heap sample_world);
     objects := ∅; pending := []; trace := [] |}.

(** A channel collaborator that never builds a channel. *)
Definition sample_channel_of (target : string) (args : option grpc_channel_args)
    (channel_stack_type : grpc_channel_stack_type) (optional_transport : ptr)
  : option grpc_channel :=
  None.

(** ** Reasoning about the monad and the heap *)

Ltac unfold_M :=
  unfold log, add_pending;
  unfold mbind, M_bind, mret, M_ret, modify, abort, fault,
    get_connector, get_connect_out_args, get_handshake_manager.

Lemma connector_is_not_out_args (h : gmap N object) (p q : ptr)
    (c : connector) (r : grpc_connect_out_args) :
  h !! p = Some (Obj_connector c) →
  h !! q = Some (Obj_connect_out_args r) →
  q ≠ p.
Proof. intros Hp Hq ->. congruence. Qed.

Ltac distinct_cells :=
  first [ assumption
        | apply not_eq_sym; assumption
        | eapply connector_is_not_out_args; eassumption
        | apply not_eq_sym; eapply connector_is_not_out_args; eassumption ].

(** Resolve the heap lookups of a run: [H] is what is known of the initial
    heap, later lookups hit the cell that was just written. *)
Ltac run_heap H :=
  simpl;
  repeat (first [ rewrite H
                | rewrite lookup_insert_eq
                | rewrite lookup_insert_ne by distinct_cells
                | rewrite lookup_delete_ne by distinct_cells ]; simpl).

Lemma get_connector_Ok (w : world) (p : ptr) (c : connector) :
  heap w !! p = Some (Obj_connector c) →
  get_connector p w = Ok c w.
Proof. intros H. unfold get_connector. by rewrite H. Qed.

Lemma update_connector_Ok (w : world) (p : ptr) (c : connector)
    (f : connector → connector) :
  heap w !! p = Some (Obj_connector c) →
  update_connector p f w =
    Ok tt (set_heap (<[p := Obj_connector (f c)]> (heap w)) w).
Proof. intros H. unfold update_connector. unfold_M. by rewrite H. Qed.

Lemma sched_count_app (t1 t2 : list event) :
  sched_count (t1 ++ t2) = (sched_count t1 + sched_count t2)%nat.
Proof. unfold sched_count. by rewrite List.filter_app, length_app. Qed.

Lemma do_handshake_count_app (t1 t2 : list event) :
  do_handshake_count (t1 ++ t2) = (do_handshake_count t1 + do_handshake_count t2)%nat.
Proof. unfold do_handshake_count. by rewrite List.filter_app, length_app. Qed.

Lemma slice_not_empty (s : grpc_slice) :
  s ≠ [] → GRPC_SLICE_IS_EMPTY s = false.
Proof. by destruct s. Qed.

Lemma not_null (p : ptr) : p ≠ NULL → is_null p = false.
Proof. intros H. unfold is_null. by apply N.eqb_neq. Qed.

(** *** connector_unref *)

(** Dropping a reference that is not the last one only decrements the count. *)
Lemma connector_unref_not_last (w : world) (con : ptr) (c : connector) :
  heap w !! con = Some (Obj_connector c) →
  refs c ≠ 1 →
  connector_unref con w =
    Ok tt {| heap := <[con := Obj_connector (set_refs (refs c - 1) c)]> (heap w);
             objects := objects w;
             pending := pending w;
             trace := trace w ++ [Ev_gpr_unref con] |}.
Proof.
  intros Hc Hr. unfold connector_unref, gpr_unref, update_connector. unfold_M.
  run_heap Hc.
  by destruct (Z.eqb_spec (refs c) 1).
Qed.

(** Dropping the last reference destroys the handshake manager and frees the
    connector. *)
Lemma connector_unref_last (w : world) (con : ptr) (c : connector) :
  heap w !! con = Some (Obj_connector c) →
  refs c = 1 →
  connector_unref con w =
    Ok tt {| heap := delete con (delete (handshake_mgr c)
                       (<[con := Obj_connector (set_refs 0 c)]> (heap w)));
             objects := objects w;
             pending := pending w;
             trace := trace w ++ [Ev_gpr_unref con;
                                  Ev_handshake_manager_destroy (handshake_mgr c);
                                  Ev_gpr_free con] |}.
Proof.
  intros Hc Hr.
  unfold connector_unref, gpr_unref, update_connector,
    grpc_handshake_manager_destroy, gpr_free.
  unfold_M. run_heap Hc. rewrite Hr. run_heap Hc.
  by rewrite <- !app_assoc.
Qed.

(** *** connected *)

Lemma connected_writes_initial_string (w : world) (arg : ptr) (c : connector)
    (error : grpc_error) :
  heap w !! arg = Some (Obj_connector c) →
  tcp c ≠ NULL →
  initial_connect_string (args c) ≠ [] →
  connected arg error w =
    Ok tt {| heap := <[arg := Obj_connector (writing_initial_bytes arg c)]> (heap w);
             objects := objects w;
             pending := pending w ++
               [Pending_endpoint_write
                  {| cb := Some Fn_on_initial_connect_string_sent; cb_arg := arg |}];
             trace := trace w ++
               [Ev_gpr_ref arg;
                Ev_endpoint_write (tcp c) [initial_connect_string (args c)]
                  {| cb := Some Fn_on_initial_connect_string_sent; cb_arg := arg |}] |}.
Proof.
  intros Hc Ht Hs.
  unfold connected, connector_ref, gpr_ref, grpc_endpoint_write, update_connector.
  unfold_M. run_heap Hc.
  rewrite (not_null _ Ht), (slice_not_empty _ Hs). run_heap Hc.
  rewrite !insert_insert_eq, <- !app_assoc. reflexivity.
Qed.

Lemma connected_starts_handshake (w : world) (arg : ptr) (c : connector)
    (error : grpc_error) :
  heap w !! arg = Some (Obj_connector c) →
  tcp c ≠ NULL →
  initial_connect_string (args c) = [] →
  connected arg error w =
    Ok tt {| heap := heap w;
             objects := objects w;
             pending := pending w ++ [Pending_do_handshake Fn_on_handshake_done arg];
             trace := trace w ++
               [Ev_handshake_manager_do_handshake (handshake_mgr c) (tcp c)
                  (channel_args (args c)) (deadline (args c)) NULL
                  Fn_on_handshake_done arg] |}.
Proof.
  intros Hc Ht Hs.
  unfold connected, grpc_handshake_manager_do_handshake.
  unfold_M. rewrite Hc. simpl.
  rewrite (not_null _ Ht), Hs. reflexivity.
Qed.

Lemma connected_without_endpoint (w : world) (arg : ptr) (c : connector)
    (r : grpc_connect_out_args) (error : grpc_error) :
  heap w !! arg = Some (Obj_connector c) →
  heap w !! result c = Some (Obj_connect_out_args r) →
  tcp c = NULL →
  connected arg error w =
    Ok tt {| heap := <[arg := Obj_connector (set_notify None c)]>
                     (<[result c := Obj_connect_out_args grpc_connect_out_args_zero]>
                        (heap w));
             objects := objects w;
             pending := pending w;
             trace := trace w ++
               [Ev_error_ref error; Ev_exec_ctx_sched (notify c) error] |}.
Proof.
  intros Hc Hr Ht.
  unfold connected, update_connect_out_args, update_connector, GRPC_ERROR_REF,
    grpc_exec_ctx_sched.
  unfold_M. rewrite Hc, Ht. simpl. rewrite Hr. simpl.
  rewrite lookup_insert_ne by (eapply connector_is_not_out_args; eauto).
  rewrite Hc. simpl.
  by rewrite <- app_assoc.
Qed.

(** *** connector_connect *)

Lemma connector_connect_starts (w : world) (con : ptr) (c : connector)
    (args : grpc_connect_in_args) (result : ptr) (n : grpc_closure) :
  heap w !! con = Some (Obj_connector c) →
  notify c = None →
  cb n ≠ None →
  connector_connect con args result (Some n) w =
    Ok tt (connecting_world con args result n c w).
Proof.
  intros Hc Hn Hcb.
  unfold connector_connect, grpc_tcp_client_connect, update_connector, GPR_ASSERT,
    notify_is_NULL.
  unfold_M. run_heap Hc. rewrite Hn. simpl.
  destruct (cb n) eqn:E; [| done]. run_heap Hc.
  unfold connecting_world. by rewrite !insert_insert_eq.
Qed.

Lemma connector_connect_in_flight (w : world) (con : ptr) (c : connector)
    (args : grpc_connect_in_args) (result : ptr) (notify' : option grpc_closure) :
  heap w !! con = Some (Obj_connector c) →
  notify c ≠ None →
  connector_connect con args result notify' w = Abort.
Proof.
  intros Hc Hn.
  unfold connector_connect, GPR_ASSERT, notify_is_NULL. unfold_M.
  rewrite Hc. simpl. by destruct (notify c).
Qed.

(** *** on_handshake_done *)

Lemma on_handshake_done_ok (w : world) (endpoint : ptr)
    (args : option grpc_channel_args) (read_buffer user_data : ptr)
    (c : connector) (r : grpc_connect_out_args) :
  heap w !! user_data = Some (Obj_connector c) →
  heap w !! result c = Some (Obj_connect_out_args r) →
  chttp2_transport_of args endpoint 1 ≠ NULL →
  on_handshake_done endpoint args read_buffer user_data GRPC_ERROR_NONE w =
    Ok tt {| heap := <[user_data := Obj_connector (set_notify None c)]>
                     (<[result c := Obj_connect_out_args
                          {| out_transport := chttp2_transport_of args endpoint 1;
                             out_channel_args := args |}]> (heap w));
             objects := objects w;
             pending := pending w;
             trace := trace w ++
               [Ev_create_chttp2_transport args endpoint 1;
                Ev_chttp2_transport_start_reading
                  (chttp2_transport_of args endpoint 1) read_buffer;
                Ev_exec_ctx_sched (notify c) GRPC_ERROR_NONE] |}.
Proof.
  intros Hc Hr Ht.
  unfold on_handshake_done, grpc_create_chttp2_transport, update_connect_out_args,
    grpc_chttp2_transport_start_reading, update_connector, grpc_exec_ctx_sched,
    GPR_ASSERT.
  unfold_M. run_heap Hc. rewrite Hr. run_heap Hc.
  rewrite (not_null _ Ht). run_heap Hc.
  by rewrite insert_insert_eq, <- !app_assoc.
Qed.

Lemma on_handshake_done_no_transport (w : world) (endpoint : ptr)
    (args : option grpc_channel_args) (read_buffer user_data : ptr)
    (c : connector) (r : grpc_connect_out_args) :
  heap w !! user_data = Some (Obj_connector c) →
  heap w !! result c = Some (Obj_connect_out_args r) →
  chttp2_transport_of args endpoint 1 = NULL →
  on_handshake_done endpoint args read_buffer user_data GRPC_ERROR_NONE w = Abort.
Proof.
  intros Hc Hr Ht.
  unfold on_handshake_done, grpc_create_chttp2_transport, update_connect_out_args,
    GPR_ASSERT.
  unfold_M. run_heap Hc. rewrite Hr. run_heap Hc.
  by rewrite Ht.
Qed.

Lemma on_handshake_done_failed (w : world) (endpoint : ptr)
    (args : option grpc_channel_args) (read_buffer user_data : ptr)
    (c : connector) (error : grpc_error) :
  heap w !! user_data = Some (Obj_connector c) →
  read_buffer ≠ user_data →
  error ≠ GRPC_ERROR_NONE →
  on_handshake_done endpoint args read_buffer user_data error w =
    Ok tt {| heap := <[user_data := Obj_connector (set_notify None c)]>
                     (delete read_buffer (heap w));
             objects := destroy_args args (objects w);
             pending := pending w;
             trace := trace w ++
               [Ev_channel_args_destroy args;
                Ev_gpr_free read_buffer;
                Ev_exec_ctx_sched (notify c) error] |}.
Proof.
  intros Hc Hb He.
  unfold on_handshake_done, grpc_channel_args_destroy, gpr_free, update_connector,
    grpc_exec_ctx_sched.
  unfold_M. destruct error as [| desc]; [done |].
  run_heap Hc.
  by rewrite <- !app_assoc.
Qed.

(** *** The environment *)

Lemma deliver_only_pending (k : completion) (op : pending_op) (w : world) :
  pending w = [op] →
  completes k op = true →
  deliver k w = Some (complete k op (set_pending [] w)).
Proof.
  intros Hp Hk. unfold deliver. rewrite Hp. simpl. by rewrite Hk.
Qed.

Lemma deliver_nothing_pending (k : completion) (w : world) :
  pending w = [] →
  deliver k w = None.
Proof. intros Hp. unfold deliver. by rewrite Hp. Qed.

(** An attempt whose raw connect yields an endpoint while the initial connect
    string is not empty: the write is issued, and its completion only drops
    the reference taken for it. *)
Lemma initial_string_attempt_run (w : world) (con : ptr) (c : connector)
    (in_args : grpc_connect_in_args) (result : ptr) (n : grpc_closure)
    (ep : ptr) (e1 e2 : grpc_error) :
  heap w !! con = Some (Obj_connector c) →
  pending w = [] →
  refs c ≠ 0 →
  ep ≠ NULL →
  initial_connect_string in_args ≠ [] →
  run [Tcp_client_connect_done ep e1; Endpoint_write_done e2]
      (connecting_world con in_args result n c w) =
    Some (Ok tt
      {| heap := <[con := Obj_connector
                     (set_refs (refs c)
                        (writing_initial_bytes con
                           (set_tcp ep (connecting con in_args result n c))))]>
                 (heap w);
         objects := objects w;
         pending := [];
         trace := trace w ++
           [Ev_tcp_client_connect {| cb := Some Fn_connected; cb_arg := con |} con
              (interested_parties in_args) (channel_args in_args) (addr in_args)
              (deadline in_args);
            Ev_gpr_ref con;
            Ev_endpoint_write ep [initial_connect_string in_args]
              {| cb := Some Fn_on_initial_connect_string_sent; cb_arg := con |};
            Ev_gpr_unref con] |}).
Proof.
  intros Hc Hp Hr Hep Hs. unfold run.
  erewrite deliver_only_pending; [| simpl; by rewrite Hp | done].
  unfold complete, grpc_closure_run. simpl.
  unfold mbind at 1, M_bind at 1.
  erewrite update_connector_Ok by (simpl; apply lookup_insert_eq).
  erewrite connected_writes_initial_string;
    [| simpl; apply lookup_insert_eq | done | done].
  erewrite deliver_only_pending; [| simpl; reflexivity | done].
  unfold complete, grpc_closure_run, on_initial_connect_string_sent. simpl.
  erewrite connector_unref_not_last;
    [| simpl; apply lookup_insert_eq | simpl; lia].
  simpl. rewrite !insert_insert_eq, <- !app_assoc. simpl.
  by rewrite Z.add_simpl_r.
Qed.

Lemma connect_failure_run (w : world) (con : ptr) (c : connector)
    (in_args : grpc_connect_in_args) (result : ptr) (r : grpc_connect_out_args)
    (n : grpc_closure) (error : grpc_error) :
  heap w !! con = Some (Obj_connector c) →
  heap w !! result = Some (Obj_connect_out_args r) →
  pending w = [] →
  run [Tcp_client_connect_done NULL error]
      (connecting_world con in_args result n c w) =
    Some (Ok tt
      {| heap := <[con := Obj_connector
                     (set_notify None (connecting con in_args result n c))]>
                 (<[result := Obj_connect_out_args grpc_connect_out_args_zero]>
                    (heap w));
         objects := objects w;
         pending := [];
         trace := trace w ++
           [Ev_tcp_client_connect {| cb := Some Fn_connected; cb_arg := con |} con
              (interested_parties in_args) (channel_args in_args) (addr in_args)
              (deadline in_args);
            Ev_error_ref error;
            Ev_exec_ctx_sched (Some n) error] |}).
Proof.
  intros Hc Hr Hp. unfold run.
  assert (result ≠ con) as Hne by (eapply connector_is_not_out_args; eauto).
  erewrite deliver_only_pending; [| simpl; by rewrite Hp | done].
  unfold complete, grpc_closure_run. simpl.
  unfold mbind at 1, M_bind at 1.
  erewrite update_connector_Ok by (simpl; apply lookup_insert_eq).
  erewrite connected_without_endpoint;
    [| simpl; apply lookup_insert_eq
     | simpl; rewrite !lookup_insert_ne by done; exact Hr
     | done].
  simpl. rewrite !insert_insert_eq.
  rewrite (insert_insert_ne _ result con) by done.
  by rewrite insert_insert_eq, <- !app_assoc.
Qed.

(** X2: an attempt without initial connect string whose raw connect succeeds
    schedules the completion callback exactly once, with the error of the
    handshake, when the handshake is done and, on success, a transport could
    be built; afterwards nothing is pending and the stored callback is
    cleared. *)
Lemma plain_attempt_notifies_once (w : world) (con : ptr) (c : connector)
    (in_args : grpc_connect_in_args) (result : ptr) (r : grpc_connect_out_args)
    (n : grpc_closure) (ep endpoint read_buffer : ptr)
    (args : option grpc_channel_args) (e1 error : grpc_error) :
  heap w !! con = Some (Obj_connector c) →
  heap w !! result = Some (Obj_connect_out_args r) →
  pending w = [] →
  ep ≠ NULL →
  initial_connect_string in_args = [] →
  read_buffer ≠ con →
  error ≠ GRPC_ERROR_NONE ∨ chttp2_transport_of args endpoint 1 ≠ NULL →
  ∃ w2 c2,
    run [Tcp_client_connect_done ep e1;
         Handshake_done endpoint args read_buffer error]
        (connecting_world con in_args result n c w) = Some (Ok tt w2) ∧
    pending w2 = [] ∧
    sched_count (trace w2) = S (sched_count (trace w)) ∧
    In (Ev_exec_ctx_sched (Some n) error) (trace w2) ∧
    heap w2 !! con = Some (Obj_connector c2) ∧
    notify c2 = None.
Proof.
  intros Hc Hr Hp Hep Hs Hb Hok. unfold run.
  assert (result ≠ con) as Hne by (eapply connector_is_not_out_args; eauto).
  erewrite deliver_only_pending; [| simpl; by rewrite Hp | done].
  unfold complete, grpc_closure_run. simpl.
  unfold mbind at 1, M_bind at 1.
  erewrite update_connector_Ok by (simpl; apply lookup_insert_eq).
  erewrite connected_starts_handshake;
    [| simpl; apply lookup_insert_eq | done | done].
  erewrite deliver_only_pending; [| simpl; reflexivity | done].
  unfold complete, grpc_handshaker_done_run. simpl.
  destruct error as [| desc].
  - destruct Hok as [Hok | Hok]; [done |].
    erewrite on_handshake_done_ok;
      [| simpl; apply lookup_insert_eq
       | simpl; rewrite !lookup_insert_ne by done; exact Hr
       | done].
    eexists _, _. split; [reflexivity |]. simpl.
    split; [done |].
    split; [rewrite !sched_count_app; unfold sched_count; simpl; lia |].
    split; [rewrite !in_app_iff; simpl; auto 10 |].
    split; [apply lookup_insert_eq | reflexivity].
  - erewrite on_handshake_done_failed;
      [| simpl; apply lookup_insert_eq | done | done].
    eexists _, _. split; [reflexivity |]. simpl.
    split; [done |].
    split; [rewrite !sched_count_app; unfold sched_count; simpl; lia |].
    split; [rewrite !in_app_iff; simpl; auto 10 |].
    split; [apply lookup_insert_eq | reflexivity].
Qed.


(** *** What a callback can do to the schedule count, whatever the heap *)

Ltac count_sched :=
  simpl; rewrite ?sched_count_app; unfold sched_count; simpl; try lia.

Lemma connector_unref_schedules_nothing (w w' : world) (con : ptr) :
  connector_unref con w = Ok tt w' →
  pending w' = pending w ∧ sched_count (trace w') = sched_count (trace w).
Proof.
  unfold connector_unref, gpr_unref, update_connector,
    grpc_handshake_manager_destroy, gpr_free.
  unfold_M. simpl.
  destruct (heap w !! con) as [[c | r | hs] |] eqn:Hc; run_heap Hc;
    try discriminate.
  destruct (refs c =? 1); run_heap Hc.
  - intros [= <-]. split; [done | count_sched].
  - intros [= <-]. split; [done | count_sched].
Qed.

Lemma on_handshake_done_schedules_once (w w' : world) (endpoint : ptr)
    (args : option grpc_channel_args) (read_buffer user_data : ptr)
    (error : grpc_error) :
  on_handshake_done endpoint args read_buffer user_data error w = Ok tt w' →
  pending w' = pending w ∧ sched_count (trace w') = S (sched_count (trace w)).
Proof.
  unfold on_handshake_done, grpc_channel_args_destroy, gpr_free,
    grpc_create_chttp2_transport, update_connect_out_args,
    grpc_chttp2_transport_start_reading, update_connector, grpc_exec_ctx_sched,
    GPR_ASSERT.
  unfold_M. destruct error as [| desc]; simpl.
  - destruct (heap w !! user_data) as [[c | r | hs] |] eqn:Hc; run_heap Hc;
      try discriminate.
    destruct (heap w !! result c) as [[c0 | r | hs] |] eqn:Hr; run_heap Hr;
      try discriminate.
    destruct (is_null (chttp2_transport_of args endpoint 1)); run_heap Hr;
      try discriminate.
    destruct (_ !! user_data) as [[c1 | r1 | hs1] |] eqn:Hc1; run_heap Hc1;
      try discriminate.
    intros [= <-]. split; [done | count_sched].
  - destruct (delete read_buffer (heap w) !! user_data) as [[c | r | hs] |] eqn:Hc;
      run_heap Hc; try discriminate.
    intros [= <-]. split; [done | count_sched].
Qed.

Lemma connected_schedules_at_most_once (w w' : world) (arg : ptr)
    (error : grpc_error) :
  connected arg error w = Ok tt w' →
  (pending w' = pending w ++
     [Pending_endpoint_write
        {| cb := Some Fn_on_initial_connect_string_sent; cb_arg := arg |}] ∧
   sched_count (trace w') = sched_count (trace w)) ∨
  (pending w' = pending w ++ [Pending_do_handshake Fn_on_handshake_done arg] ∧
   sched_count (trace w') = sched_count (trace w)) ∨
  (pending w' = pending w ∧
   sched_count (trace w') = S (sched_count (trace w))).
Proof.
  unfold connected, connector_ref, gpr_ref, grpc_endpoint_write,
    grpc_handshake_manager_do_handshake, update_connect_out_args,
    update_connector, GRPC_ERROR_REF, grpc_exec_ctx_sched.
  unfold_M. simpl.
  destruct (heap w !! arg) as [[c | r | hs] |] eqn:Hc; run_heap Hc;
    try discriminate.
  destruct (is_null (tcp c)); simpl.
  - destruct (heap w !! result c) as [[c0 | r | hs] |] eqn:Hr; run_heap Hr;
      try discriminate.
    destruct (_ !! arg) as [[c1 | r1 | hs1] |] eqn:Hc1; run_heap Hc1;
      try discriminate.
    intros [= <-]. right. right. split; [done | count_sched].
  - destruct (GRPC_SLICE_IS_EMPTY (initial_connect_string (args c))); simpl.
    + intros [= <-]. right. left. split; [done | count_sched].
    + run_heap Hc.
      intros [= <-]. left. split; [done | count_sched].
Qed.

(** The states an attempt goes through, with [b] the number of closures
    scheduled before it started. *)
Lemma attempt_step (k : completion) (w w' : world) (con : ptr) (b : nat) :
  attempt_inv con b w →
  deliver k w = Some (Ok tt w') →
  attempt_inv con b w'.
Proof.
  unfold attempt_inv, deliver.
  intros [[Hp Hs] | [[Hp Hs] | [[Hp Hs] | [Hp Hs]]]]; rewrite Hp; simpl.
  - destruct k; simpl; try discriminate.
    unfold grpc_closure_run, update_connector. unfold_M. simpl.
    destruct (heap w !! con) as [[c | r | hs] |] eqn:Hc; run_heap Hc;
      try discriminate.
    intros [= H]. apply connected_schedules_at_most_once in H. simpl in H.
    destruct H as [[H1 H2] | [[H1 H2] | [H1 H2]]].
    + right. left. split; [done | lia].
    + right. right. left. split; [done | lia].
    + right. right. right. split; [done | lia].
  - destruct k; simpl; try discriminate.
    unfold grpc_closure_run, on_initial_connect_string_sent. simpl.
    intros [= H]. apply connector_unref_schedules_nothing in H. simpl in H.
    destruct H as [H1 H2]. right. right. right. split; [done | lia].
  - destruct k; simpl; try discriminate.
    intros [= H]. apply on_handshake_done_schedules_once in H. simpl in H.
    destruct H as [H1 H2]. right. right. right. split; [done | lia].
  - discriminate.
Qed.

(** X1: whatever the collaborators report and in whatever order, an attempt
    schedules the completion callback at most once. *)
Lemma attempt_notifies_at_most_once (ks : list completion) (w w2 : world)
    (con : ptr) (c : connector) (in_args : grpc_connect_in_args) (result : ptr)
    (n : grpc_closure) :
  pending w = [] →
  run ks (connecting_world con in_args result n c w) = Some (Ok tt w2) →
  (sched_count (trace w2) ≤ S (sched_count (trace w)))%nat.
Proof.
  intros Hp Hrun.
  assert (attempt_inv con (sched_count (trace w))
            (connecting_world con in_args result n c w)) as Hinv.
  { left. simpl. rewrite Hp. split; [done | count_sched]. }
  revert Hinv Hrun. generalize (connecting_world con in_args result n c w).
  induction ks as [| k ks IH]; intros w1 Hinv Hrun; simpl in Hrun.
  - injection Hrun as <-.
    destruct Hinv as [[_ H] | [[_ H] | [[_ H] | [_ H]]]]; lia.
  - destruct (deliver k w1) as [[[] w1' | |] |] eqn:Hd; try discriminate.
    eapply IH; [| exact Hrun]. by eapply attempt_step.
Qed.

(** ** The claims about the connector *)

(** C1, as the code behaves: an attempt whose raw connect succeeds while the
    initial connect string is not empty comes to rest with nothing left
    pending, without the completion callback ever having been scheduled and
    with the callback pointer still stored; the attempt is dropped, so the
    callback is not invoked exactly once on this path. *)
Theorem initial_string_attempt_never_notifies (w : world) (con : ptr)
    (c : connector) (in_args : grpc_connect_in_args) (result : ptr)
    (n : grpc_closure) (ep : ptr) (e1 e2 : grpc_error) :
  heap w !! con = Some (Obj_connector c) →
  notify c = None →
  cb n ≠ None →
  pending w = [] →
  refs c ≠ 0 →
  ep ≠ NULL →
  initial_connect_string in_args ≠ [] →
  ∃ w1 w2 c2,
    connector_connect con in_args result (Some n) w = Ok tt w1 ∧
    run [Tcp_client_connect_done ep e1; Endpoint_write_done e2] w1 = Some (Ok tt w2) ∧
    (∀ k, deliver k w2 = None) ∧
    sched_count (trace w2) = sched_count (trace w) ∧
    heap w2 !! con = Some (Obj_connector c2) ∧
    notify c2 = Some n.
Proof.
  intros Hc Hn Hcb Hp Hr Hep Hs.
  eexists _, _, _. split; [by apply connector_connect_starts |].
  split; [by apply initial_string_attempt_run |].
  split; [intros k; by apply deliver_nothing_pending |].
  split; [simpl; rewrite sched_count_app; unfold sched_count; simpl; lia |].
  split; [simpl; apply lookup_insert_eq | reflexivity].
Qed.

(** C2, as the code behaves: after the initial-bytes write completes, whether
    it succeeded or failed, the connector has only dropped the reference taken
    for the write; grpc_handshake_manager_do_handshake has not been called and
    no handshake is pending. *)
Theorem initial_string_write_never_handshakes (w : world) (con : ptr)
    (c : connector) (in_args : grpc_connect_in_args) (result : ptr)
    (n : grpc_closure) (ep : ptr) (e1 e2 : grpc_error) :
  heap w !! con = Some (Obj_connector c) →
  notify c = None →
  cb n ≠ None →
  pending w = [] →
  refs c ≠ 0 →
  ep ≠ NULL →
  initial_connect_string in_args ≠ [] →
  ∃ w1 w2,
    connector_connect con in_args result (Some n) w = Ok tt w1 ∧
    run [Tcp_client_connect_done ep e1; Endpoint_write_done e2] w1 = Some (Ok tt w2) ∧
    pending w2 = [] ∧
    trace w2 = trace w ++
      [Ev_tcp_client_connect {| cb := Some Fn_connected; cb_arg := con |} con
         (interested_parties in_args) (channel_args in_args) (addr in_args)
         (deadline in_args);
       Ev_gpr_ref con;
       Ev_endpoint_write ep [initial_connect_string in_args]
         {| cb := Some Fn_on_initial_connect_string_sent; cb_arg := con |};
       Ev_gpr_unref con] ∧
    do_handshake_count (trace w2) = do_handshake_count (trace w).
Proof.
  intros Hc Hn Hcb Hp Hr Hep Hs.
  eexists _, _. split; [by apply connector_connect_starts |].
  split; [by apply initial_string_attempt_run |].
  split; [reflexivity |]. split; [reflexivity |].
  simpl. rewrite do_handshake_count_app. unfold do_handshake_count. simpl. lia.
Qed.

(** C3: when the handshake pipeline completes without error,
    on_handshake_done creates the chttp2 transport over the final endpoint as
    a client, aborts on the assertion if none was created, and otherwise starts
    the transport reading from the leftover read buffer, stores the transport
    and the negotiated channel args in the result slot, clears the stored
    callback and schedules it with no error. *)
Theorem on_handshake_done_success (w : world) (endpoint : ptr)
    (args : option grpc_channel_args) (read_buffer user_data : ptr)
    (c : connector) (r : grpc_connect_out_args) :
  heap w !! user_data = Some (Obj_connector c) →
  heap w !! result c = Some (Obj_connect_out_args r) →
  on_handshake_done endpoint args read_buffer user_data GRPC_ERROR_NONE w =
    if is_null (chttp2_transport_of args endpoint 1) then Abort
    else
      Ok tt {| heap := <[user_data := Obj_connector (set_notify None c)]>
                       (<[result c := Obj_connect_out_args
                            {| out_transport := chttp2_transport_of args endpoint 1;
                               out_channel_args := args |}]> (heap w));
               objects := objects w;
               pending := pending w;
               trace := trace w ++
                 [Ev_create_chttp2_transport args endpoint 1;
                  Ev_chttp2_transport_start_reading
                    (chttp2_transport_of args endpoint 1) read_buffer;
                  Ev_exec_ctx_sched (notify c) GRPC_ERROR_NONE] |}.
Proof.
  intros Hc Hr.
  destruct (is_null (chttp2_transport_of args endpoint 1)) eqn:E.
  - apply N.eqb_eq in E. by eapply on_handshake_done_no_transport.
  - apply N.eqb_neq in E. by eapply on_handshake_done_ok.
Qed.

(** C4: when the raw connect leaves the endpoint out-parameter empty, the
    attempt started by connector_connect ends in [connected] zeroing the
    result slot, clearing the stored callback and scheduling it with the
    error of the connect; neither the initial-bytes write nor the handshake is
    started, and nothing remains pending. *)
Theorem connect_failure_reports_error (w : world) (con : ptr) (c : connector)
    (in_args : grpc_connect_in_args) (result : ptr) (r : grpc_connect_out_args)
    (n : grpc_closure) (error : grpc_error) :
  heap w !! con = Some (Obj_connector c) →
  heap w !! result = Some (Obj_connect_out_args r) →
  notify c = None →
  cb n ≠ None →
  pending w = [] →
  ∃ w1,
    connector_connect con in_args result (Some n) w = Ok tt w1 ∧
    run [Tcp_client_connect_done NULL error] w1 =
      Some (Ok tt
        {| heap := <[con := Obj_connector
                       (set_notify None (connecting con in_args result n c))]>
                   (<[result := Obj_connect_out_args grpc_connect_out_args_zero]>
                      (heap w));
           objects := objects w;
           pending := [];
           trace := trace w ++
             [Ev_tcp_client_connect {| cb := Some Fn_connected; cb_arg := con |} con
                (interested_parties in_args) (channel_args in_args) (addr in_args)
                (deadline in_args);
              Ev_error_ref error;
              Ev_exec_ctx_sched (Some n) error] |}).
Proof.
  intros Hc Hr Hn Hcb Hp.
  eexists. split; [by apply connector_connect_starts |].
  by eapply connect_failure_run.
Qed.

(** C5: when the handshake pipeline reports an error, on_handshake_done
    destroys the negotiated channel args and frees the leftover read buffer,
    creates no transport and leaves the result slot alone, clears the stored
    callback and schedules it with the handshake error. *)
Theorem on_handshake_done_error (w : world) (endpoint : ptr)
    (args : option grpc_channel_args) (read_buffer user_data : ptr)
    (c : connector) (error : grpc_error) :
  heap w !! user_data = Some (Obj_connector c) →
  read_buffer ≠ user_data →
  error ≠ GRPC_ERROR_NONE →
  on_handshake_done endpoint args read_buffer user_data error w =
    Ok tt {| heap := <[user_data := Obj_connector (set_notify None c)]>
                     (delete read_buffer (heap w));
             objects := destroy_args args (objects w);
             pending := pending w;
             trace := trace w ++
               [Ev_channel_args_destroy args;
                Ev_gpr_free read_buffer;
                Ev_exec_ctx_sched (notify c) error] |}.
Proof. apply on_handshake_done_failed. Qed.

(** C8: connector_connect goes through exactly when no connect is in flight
    (the stored callback is NULL) and the supplied closure has a callback;
    otherwise an assertion fails and the process aborts.  Once it has gone
    through, any further connector_connect on the connector aborts. *)
Theorem connector_connect_preconditions (w : world) (con : ptr) (c : connector)
    (in_args : grpc_connect_in_args) (result : ptr) (n : grpc_closure) :
  heap w !! con = Some (Obj_connector c) →
  connector_connect con in_args result (Some n) w =
    match notify c, cb n with
    | None, Some _ => Ok tt (connecting_world con in_args result n c w)
    | _, _ => Abort
    end ∧
  ∀ (in_args' : grpc_connect_in_args) (result' : ptr) (notify' : option grpc_closure),
    connector_connect con in_args' result' notify'
      (connecting_world con in_args result n c w) = Abort.
Proof.
  intros Hc. split.
  - destruct (notify c) as [n0 |] eqn:Hn.
    + apply connector_connect_in_flight with c; [done | by rewrite Hn].
    + destruct (cb n) as [f |] eqn:Hcb.
      * apply connector_connect_starts; [done | done | by rewrite Hcb].
      * unfold connector_connect, GPR_ASSERT, notify_is_NULL. unfold_M.
        run_heap Hc. rewrite Hn. simpl. by rewrite Hcb.
  - intros in_args' result' notify'.
    eapply connector_connect_in_flight; [simpl; apply lookup_insert_eq | done].
Qed.

(** C9: [connected] takes a reference on the connector before it issues the
    initial-bytes write; the completion of the write, whatever its error,
    drops exactly one reference, and if that was the last one the handshake
    manager is destroyed and the connector is freed. *)
Theorem initial_write_holds_reference (w : world) (arg : ptr) (c : connector)
    (error error' : grpc_error) :
  heap w !! arg = Some (Obj_connector c) →
  tcp c ≠ NULL →
  initial_connect_string (args c) ≠ [] →
  let closure := {| cb := Some Fn_on_initial_connect_string_sent; cb_arg := arg |} in
  let w1 :=
    {| heap := <[arg := Obj_connector (writing_initial_bytes arg c)]> (heap w);
       objects := objects w;
       pending := pending w ++ [Pending_endpoint_write closure];
       trace := trace w ++
         [Ev_gpr_ref arg;
          Ev_endpoint_write (tcp c) [initial_connect_string (args c)] closure] |} in
  connected arg error w = Ok tt w1 ∧
  refs (writing_initial_bytes arg c) = refs c + 1 ∧
  on_initial_connect_string_sent arg error' w1 =
    Ok tt
      (if refs c =? 0 then
         {| heap := delete arg (delete (handshake_mgr c)
                      (<[arg := Obj_connector
                           (set_refs 0 (writing_initial_bytes arg c))]> (heap w)));
            objects := objects w;
            pending := pending w1;
            trace := trace w1 ++
              [Ev_gpr_unref arg;
               Ev_handshake_manager_destroy (handshake_mgr c);
               Ev_gpr_free arg] |}
       else
         {| heap := <[arg := Obj_connector
                        (set_refs (refs c) (writing_initial_bytes arg c))]> (heap w);
            objects := objects w;
            pending := pending w1;
            trace := trace w1 ++ [Ev_gpr_unref arg] |}).
Proof.
  intros Hc Ht Hs closure w1.
  split; [by apply connected_writes_initial_string |].
  split; [reflexivity |].
  unfold on_initial_connect_string_sent.
  destruct (Z.eqb_spec (refs c) 0) as [E | E].
  - erewrite connector_unref_last;
      [| subst w1; simpl; apply lookup_insert_eq | simpl; lia].
    subst w1. simpl. by rewrite insert_insert_eq.
  - erewrite connector_unref_not_last;
      [| subst w1; simpl; apply lookup_insert_eq | simpl; lia].
    subst w1. simpl. by rewrite insert_insert_eq, Z.add_simpl_r.
Qed.

(** ** The claims about the factory and the entry point *)

Lemma fresh_not_null_not_in (h : gmap N object) :
  fresh ({[NULL]} ∪ dom h) ≠ NULL ∧ h !! fresh ({[NULL]} ∪ dom h) = None.
Proof.
  pose proof (is_fresh ({[NULL]} ∪ dom h)) as Hf. clear -Hf.
  split.
  - intros E. apply Hf. rewrite E. set_solver.
  - apply not_elem_of_dom. set_solver.
Qed.

Lemma copy_arg_list_app (l1 l2 : list grpc_arg) (o : user_objects) :
  copy_arg_list (l1 ++ l2) o =
    ((copy_arg_list l1 o).1 ++ (copy_arg_list l2 (copy_arg_list l1 o).2).1,
     (copy_arg_list l2 (copy_arg_list l1 o).2).2).
Proof.
  revert o. induction l1 as [| a l1 IH]; intros o; simpl.
  - by destruct (copy_arg_list l2 o).
  - destruct (copy_arg a o) as [a' o1]. rewrite IH.
    by destruct (copy_arg_list l1 o1).
Qed.

(** A [reserved] that is not null fails the assertion. *)
Lemma grpc_insecure_channel_create_reserved (target : string)
    (args : option grpc_channel_args) (reserved : ptr) (w : world) :
  reserved ≠ NULL →
  grpc_insecure_channel_create target args reserved w = Abort.
Proof.
  intros H. unfold grpc_insecure_channel_create, GPR_ASSERT. unfold_M.
  by rewrite (not_null _ H).
Qed.

(** C6: called with a null [reserved], grpc_insecure_channel_create returns a
    channel for every target and every channel args: the channel that
    grpc_channel_create built, or, when it built none, a lame channel created
    with GRPC_STATUS_INTERNAL and the message "Failed to create client
    channel". *)
Theorem grpc_insecure_channel_create_never_null (target : string)
    (args : option grpc_channel_args) (w : world) :
  ∃ (ch : grpc_channel) (w' : world),
    grpc_insecure_channel_create target args NULL w = Ok (Some ch) w' ∧
    ch = from_option id
           (Lame_client_channel target GRPC_STATUS_INTERNAL
              "Failed to create client channel")
           (channel_of target
              (Some (copy_arg_list
                       (default [] args ++
                        [ {| key := GRPC_ARG_SERVER_URI;
                             value := GRPC_ARG_STRING target |};
                          {| key := GRPC_ARG_CLIENT_CHANNEL_FACTORY;
                             value := GRPC_ARG_POINTER client_channel_factory
                                        cc_factory_arg_vtable |} ])
                       (objects w)).1)
              GRPC_CLIENT_CHANNEL NULL).
Proof.
  unfold grpc_insecure_channel_create, grpc_channel_args_copy_and_add,
    client_channel_factory_create_channel, grpc_channel_create,
    grpc_channel_args_destroy, grpc_client_channel_factory_unref,
    grpc_exec_ctx_finish, grpc_lame_client_channel_create, GPR_ASSERT.
  unfold_M. simpl.
  destruct (copy_arg_list _ (objects w)) as [dst o]. simpl.
  destruct (channel_of target (Some dst) GRPC_CLIENT_CHANNEL NULL) as [ch |];
    simpl; eauto.
Qed.

(** C7: the connector that client_channel_factory_create_subchannel hands to
    the subchannel owns a handshake manager holding exactly one HTTP CONNECT
    handshaker, made from the proxy address and the server name of the
    subchannel args, when the proxy lookup returns an address, and holding no
    handshaker when the lookup returns none. *)
Theorem create_subchannel_handshake_pipeline (cc_factory : ptr)
    (args : grpc_subchannel_args) (w : world) :
  ∃ (s : grpc_subchannel) (w' : world) (c : connector),
    client_channel_factory_create_subchannel cc_factory args w = Ok s w' ∧
    In (Ev_subchannel_create (sc_connector s) args) (trace w') ∧
    heap w' !! sc_connector s = Some (Obj_connector c) ∧
    heap w' !! handshake_mgr c =
      Some (Obj_handshake_manager
              match http_proxy_server with
              | Some proxy_name =>
                  [Http_connect_handshaker proxy_name (server_name args)]
              | None => []
              end).
Proof.
  unfold client_channel_factory_create_subchannel, grpc_handshake_manager_create,
    gpr_malloc, grpc_get_http_proxy_server, grpc_handshake_manager_add,
    gpr_free_string, grpc_subchannel_create, grpc_connector_ref,
    grpc_connector_unref, update_connector.
  unfold_M. simpl.
  set (p := fresh ({[NULL]} ∪ dom (heap w))).
  run_heap (@eq_refl N p). rewrite !insert_insert_eq.
  set (c1 := set_refs 1 _).
  set (q := fresh _).
  assert (q ≠ p) as Hqp.
  { destruct (fresh_not_null_not_in (<[p := Obj_connector c1]> (heap w))) as [_ Hq].
    fold q in Hq. intros E. rewrite E, lookup_insert_eq in Hq. done. }
  run_heap (@eq_refl N p).
  destruct http_proxy_server as [proxy_name |];
    repeat (progress (unfold connector_ref, connector_unref, gpr_ref, gpr_unref,
                        update_connector; unfold_M; run_heap (@eq_refl N p)));
    (eexists _, _, _; split; [reflexivity |]); simpl;
    (split; [rewrite !in_app_iff; simpl; auto 10 |]);
    (split; [apply lookup_insert_eq |]); simpl;
    run_heap (@eq_refl N p); reflexivity.
Qed.

(** C10: the vtable under which the client channel factory is stored in the
    channel args neither duplicates nor frees it: copy returns the same
    pointer and touches nothing, destroy touches nothing, and cmp is -1, 0 or
    1 as the first address is below, equal to or above the second.  Hence the
    copy of any channel args that end with the factory entry ends with the
    identical entry, and destroying the entry frees nothing. *)
Theorem cc_factory_arg_vtable_aliases (p q : ptr) (o : user_objects)
    (k : string) (l : list grpc_arg) :
  copy cc_factory_arg_vtable p o = (p, o) ∧
  destroy cc_factory_arg_vtable p o = o ∧
  cmp cc_factory_arg_vtable p q =
    match (p ?= q)%N with
    | Lt => -1
    | Eq => 0
    | Gt => 1
    end ∧
  let entry := {| key := k; value := GRPC_ARG_POINTER p cc_factory_arg_vtable |} in
  copy_arg_list (l ++ [entry]) o =
    ((copy_arg_list l o).1 ++ [entry], (copy_arg_list l o).2) ∧
  destroy_arg entry o = o.
Proof.
  split; [reflexivity |]. split; [reflexivity |]. split.
  - simpl. unfold cc_factory_arg_cmp.
    destruct (N.compare_spec p q) as [E | E | E].
    + subst q. by rewrite N.ltb_irrefl.
    + apply N.ltb_lt in E. by rewrite E.
    + assert ((p <? q)%N = false) as -> by (apply N.ltb_ge; lia).
      apply N.ltb_lt in E. by rewrite E.
  - simpl. split; [| reflexivity].
    by rewrite copy_arg_list_app.
Qed.

(** ** Further properties of the connector *)

(** X3: in an attempt without initial connect string, once the raw connect
    has delivered an endpoint -- whatever error it reports along with it --
    [connected] hands that endpoint to the connector's own handshake manager
    together with the channel args and the deadline of the connect call and a
    null acceptor; the callback is not scheduled yet, the connector holds no
    further reference and the result slot is not touched. *)
Theorem plain_attempt_starts_handshake (w : world) (con : ptr) (c : connector)
    (in_args : grpc_connect_in_args) (result : ptr) (n : grpc_closure)
    (ep : ptr) (e1 : grpc_error) :
  heap w !! con = Some (Obj_connector c) →
  notify c = None →
  cb n ≠ None →
  pending w = [] →
  ep ≠ NULL →
  initial_connect_string in_args = [] →
  ∃ w1,
    connector_connect con in_args result (Some n) w = Ok tt w1 ∧
    run [Tcp_client_connect_done ep e1] w1 =
      Some (Ok tt
        {| heap := <[con := Obj_connector
                       (set_tcp ep (connecting con in_args result n c))]> (heap w);
           objects := objects w;
           pending := [Pending_do_handshake Fn_on_handshake_done con];
           trace := trace w ++
             [Ev_tcp_client_connect {| cb := Some Fn_connected; cb_arg := con |} con
                (interested_parties in_args) (channel_args in_args) (addr in_args)
                (deadline in_args);
              Ev_handshake_manager_do_handshake (handshake_mgr c) ep
                (channel_args in_args) (deadline in_args) NULL
                Fn_on_handshake_done con] |}).
Proof.
  intros Hc Hn Hcb Hp Hep Hs.
  eexists. split; [by apply connector_connect_starts |].
  unfold run.
  erewrite deliver_only_pending; [| simpl; by rewrite Hp | done].
  unfold complete, grpc_closure_run. simpl.
  unfold mbind at 1, M_bind at 1.
  erewrite update_connector_Ok by (simpl; apply lookup_insert_eq).
  erewrite connected_starts_handshake;
    [| simpl; apply lookup_insert_eq | done | done].
  simpl. by rewrite insert_insert_eq, <- !app_assoc.
Qed.

(** X4: a whole successful attempt without initial connect string.  The
    transport is built from the endpoint and the channel args that the
    handshake returns (not from the raw endpoint or the caller's args) and is
    stored with those args in the caller's result slot; the callback is
    scheduled last, with no error, and the connector is left without stored
    callback and with the reference count it had. *)
Theorem plain_attempt_delivers_transport (w : world) (con : ptr) (c : connector)
    (in_args : grpc_connect_in_args) (result : ptr) (r : grpc_connect_out_args)
    (n : grpc_closure) (ep endpoint read_buffer : ptr)
    (args : option grpc_channel_args) (e1 : grpc_error) :
  heap w !! con = Some (Obj_connector c) →
  heap w !! result = Some (Obj_connect_out_args r) →
  pending w = [] →
  ep ≠ NULL →
  initial_connect_string in_args = [] →
  chttp2_transport_of args endpoint 1 ≠ NULL →
  run [Tcp_client_connect_done ep e1;
       Handshake_done endpoint args read_buffer GRPC_ERROR_NONE]
      (connecting_world con in_args result n c w) =
    Some (Ok tt
      {| heap := <[con := Obj_connector
                     (set_notify None
                        (set_tcp ep (connecting con in_args result n c)))]>
                 (<[result := Obj_connect_out_args
                      {| out_transport := chttp2_transport_of args endpoint 1;
                         out_channel_args := args |}]> (heap w));
         objects := objects w;
         pending := [];
         trace := trace w ++
           [Ev_tcp_client_connect {| cb := Some Fn_connected; cb_arg := con |} con
              (interested_parties in_args) (channel_args in_args) (addr in_args)
              (deadline in_args);
            Ev_handshake_manager_do_handshake (handshake_mgr c) ep
              (channel_args in_args) (deadline in_args) NULL
              Fn_on_handshake_done con;
            Ev_create_chttp2_transport args endpoint 1;
            Ev_chttp2_transport_start_reading
              (chttp2_transport_of args endpoint 1) read_buffer;
            Ev_exec_ctx_sched (Some n) GRPC_ERROR_NONE] |}).
Proof.
  intros Hc Hr Hp Hep Hs Ht. unfold run.
  assert (result ≠ con) as Hne by (eapply connector_is_not_out_args; eauto).
  erewrite deliver_only_pending; [| simpl; by rewrite Hp | done].
  unfold complete, grpc_closure_run. simpl.
  unfold mbind at 1, M_bind at 1.
  erewrite update_connector_Ok by (simpl; apply lookup_insert_eq).
  erewrite connected_starts_handshake;
    [| simpl; apply lookup_insert_eq | done | done].
  erewrite deliver_only_pending; [| simpl; reflexivity | done].
  unfold complete, grpc_handshaker_done_run. simpl.
  erewrite on_handshake_done_ok;
    [| simpl; apply lookup_insert_eq
     | simpl; rewrite !lookup_insert_ne by done; exact Hr
     | done].
  simpl. rewrite !insert_insert_eq.
  rewrite (insert_insert_ne _ result con) by done.
  by rewrite insert_insert_eq, <- !app_assoc.
Qed.

(** X5: whenever on_handshake_done returns, with or without handshake error
    and whatever the heap looked like, the connector is idle again: a
    connector_connect with a closure that has a callback is accepted. *)
Theorem on_handshake_done_leaves_idle (w w' : world) (endpoint : ptr)
    (args : option grpc_channel_args) (read_buffer user_data : ptr)
    (error : grpc_error) (in_args : grpc_connect_in_args) (slot : ptr)
    (f : grpc_iomgr_cb_func) (a : ptr) :
  on_handshake_done endpoint args read_buffer user_data error w = Ok tt w' →
  ∃ c',
    heap w' !! user_data = Some (Obj_connector c') ∧
    notify c' = None ∧
    connector_connect user_data in_args slot
      (Some {| cb := Some f; cb_arg := a |}) w' =
      Ok tt (connecting_world user_data in_args slot
               {| cb := Some f; cb_arg := a |} c' w').
Proof.
  unfold on_handshake_done, grpc_channel_args_destroy, gpr_free,
    grpc_create_chttp2_transport, update_connect_out_args,
    grpc_chttp2_transport_start_reading, update_connector, grpc_exec_ctx_sched,
    GPR_ASSERT.
  unfold_M. destruct error as [| desc]; simpl.
  - destruct (heap w !! user_data) as [[c | r | hs] |] eqn:Hc; run_heap Hc;
      try discriminate.
    destruct (heap w !! result c) as [[c0 | r | hs] |] eqn:Hr; run_heap Hr;
      try discriminate.
    destruct (is_null (chttp2_transport_of args endpoint 1)); run_heap Hr;
      try discriminate.
    destruct (_ !! user_data) as [[c1 | r1 | hs1] |] eqn:Hc1; run_heap Hc1;
      try discriminate.
    intros [= <-]. eexists. split; [simpl; apply lookup_insert_eq |].
    split; [reflexivity |].
    apply connector_connect_starts; [simpl; apply lookup_insert_eq | done | done].
  - destruct (delete read_buffer (heap w) !! user_data) as [[c | r | hs] |] eqn:Hc;
      run_heap Hc; try discriminate.
    intros [= <-]. eexists. split; [simpl; apply lookup_insert_eq |].
    split; [reflexivity |].
    apply connector_connect_starts; [simpl; apply lookup_insert_eq | done | done].
Qed.

(** X6: after an attempt whose raw connect failed, the same connector accepts
    the next connector_connect: the failed attempt leaves nothing behind that
    blocks a retry. *)
Theorem connect_failure_allows_retry (w : world) (con : ptr) (c : connector)
    (in_args in_args' : grpc_connect_in_args) (result result' : ptr)
    (r : grpc_connect_out_args) (n n' : grpc_closure) (error : grpc_error) :
  heap w !! con = Some (Obj_connector c) →
  heap w !! result = Some (Obj_connect_out_args r) →
  pending w = [] →
  cb n' ≠ None →
  ∃ w2 c2,
    run [Tcp_client_connect_done NULL error]
        (connecting_world con in_args result n c w) = Some (Ok tt w2) ∧
    connector_connect con in_args' result' (Some n') w2 =
      Ok tt (connecting_world con in_args' result' n' c2 w2) ∧
    pending (connecting_world con in_args' result' n' c2 w2) =
      [Pending_tcp_client_connect {| cb := Some Fn_connected; cb_arg := con |} con].
Proof.
  intros Hc Hr Hp Hcb.
  eexists _, _. split; [by eapply connect_failure_run |].
  split; [| reflexivity].
  apply connector_connect_starts; [simpl; apply lookup_insert_eq | done | done].
Qed.

(** X7: after the attempt that is dropped on the initial-bytes path (connect
    succeeded, initial connect string not empty, write completed), the stored
    callback is never cleared, so every later connector_connect on this
    connector fails its first assertion. *)
Theorem dropped_attempt_blocks_connector (w : world) (con : ptr) (c : connector)
    (in_args : grpc_connect_in_args) (result : ptr) (n : grpc_closure)
    (ep : ptr) (e1 e2 : grpc_error) :
  heap w !! con = Some (Obj_connector c) →
  pending w = [] →
  refs c ≠ 0 →
  ep ≠ NULL →
  initial_connect_string in_args ≠ [] →
  ∃ w2,
    run [Tcp_client_connect_done ep e1; Endpoint_write_done e2]
        (connecting_world con in_args result n c w) = Some (Ok tt w2) ∧
    ∀ (in_args' : grpc_connect_in_args) (result' : ptr)
      (notify' : option grpc_closure),
      connector_connect con in_args' result' notify' w2 = Abort.
Proof.
  intros Hc Hp Hr Hep Hs.
  eexists. split; [by apply initial_string_attempt_run |].
  intros in_args' result' notify'.
  eapply connector_connect_in_flight; [simpl; apply lookup_insert_eq | done].
Qed.

(** X8: connector_ref followed by connector_unref on a live connector puts
    the heap back as it was: nothing is destroyed or freed, only the two
    reference operations are recorded. *)
Theorem connector_ref_unref_restores (w : world) (con : ptr) (c : connector) :
  heap w !! con = Some (Obj_connector c) →
  refs c ≠ 0 →
  (connector_ref con;; connector_unref con) w =
    Ok tt (set_trace (trace w ++ [Ev_gpr_ref con; Ev_gpr_unref con]) w).
Proof.
  intros Hc Hr.
  unfold connector_ref, gpr_ref.
  unfold mbind at 1, M_bind at 1.
  unfold mbind at 1, M_bind at 1. unfold log at 1, modify at 1.
  erewrite update_connector_Ok by exact Hc.
  erewrite connector_unref_not_last;
    [| simpl; apply lookup_insert_eq | simpl; lia].
  simpl. rewrite insert_insert_eq, <- app_assoc. simpl.
  unfold set_trace. simpl. do 2 f_equal.
  apply insert_id. rewrite Hc. do 2 f_equal.
  destruct c. unfold set_refs. simpl. f_equal. lia.
Qed.

(** X9: a connector that holds [n + 1] references survives [n] calls of
    connector_unref, with one reference left and its handshake manager in
    place; the next call destroys the handshake manager and then frees the
    connector, exactly once. *)
Theorem connector_freed_by_last_unref (n : nat) (w : world) (con : ptr)
    (c : connector) :
  heap w !! con = Some (Obj_connector c) →
  refs c = Z.of_nat (S n) →
  connector_unref_n n con w =
    Ok tt {| heap := <[con := Obj_connector (set_refs 1 c)]> (heap w);
             objects := objects w;
             pending := pending w;
             trace := trace w ++ repeat (Ev_gpr_unref con) n |} ∧
  connector_unref_n (S n) con w =
    Ok tt {| heap := delete con (delete (handshake_mgr c)
                       (<[con := Obj_connector (set_refs 0 c)]> (heap w)));
             objects := objects w;
             pending := pending w;
             trace := trace w ++ repeat (Ev_gpr_unref con) (S n) ++
                      [Ev_handshake_manager_destroy (handshake_mgr c);
                       Ev_gpr_free con] |}.
Proof.
  revert w c. induction n as [| n IH]; intros w c Hc Hr.
  - split.
    + simpl. unfold_M. rewrite app_nil_r. do 2 f_equal.
      destruct w as [h o p t]. simpl in *. f_equal.
      symmetry. apply insert_id. rewrite Hc. do 2 f_equal.
      destruct c. unfold set_refs. simpl in *. by f_equal.
    + simpl. unfold mbind, M_bind.
      erewrite connector_unref_last by (done || (simpl in Hr; lia)).
      reflexivity.
  - assert (refs c ≠ 1) as Hne by lia.
    pose proof (connector_unref_not_last w con c Hc Hne) as Hstep.
    set (w1 := {| heap := <[con := Obj_connector (set_refs (refs c - 1) c)]> (heap w);
                  objects := objects w;
                  pending := pending w;
                  trace := trace w ++ [Ev_gpr_unref con] |}) in *.
    assert (heap w1 !! con = Some (Obj_connector (set_refs (refs c - 1) c)))
      as Hc1 by apply lookup_insert_eq.
    assert (refs (set_refs (refs c - 1) c) = Z.of_nat (S n)) as Hr1
      by (simpl; lia).
    destruct (IH w1 _ Hc1 Hr1) as [IH1 IH2].
    split.
    + change (connector_unref_n (S n) con w)
        with ((connector_unref con;; connector_unref_n n con) w).
      unfold mbind at 1, M_bind at 1. rewrite Hstep, IH1. simpl.
      by rewrite insert_insert_eq, <- app_assoc.
    + change (connector_unref_n (S (S n)) con w)
        with ((connector_unref con;; connector_unref_n (S n) con) w).
      unfold mbind at 1, M_bind at 1. rewrite Hstep, IH2. simpl.
      by rewrite insert_insert_eq, <- !app_assoc.
Qed.

(** *** What an attempt keeps, whatever the collaborators report *)

Lemma connected_keeps (w w' : world) (arg slot : ptr) (error : grpc_error)
    (c : connector) (r0 : grpc_connect_out_args) :
  heap w !! arg = Some (Obj_connector c) →
  heap w !! slot = Some (Obj_connect_out_args r0) →
  connected arg error w = Ok tt w' →
  ∃ c',
    heap w' !! arg = Some (Obj_connector c') ∧
    ((pending w' = pending w ++
        [Pending_endpoint_write
           {| cb := Some Fn_on_initial_connect_string_sent; cb_arg := arg |}] ∧
      refs c' = refs c + 1 ∧
      sched_count (trace w') = sched_count (trace w) ∧
      heap w' !! slot = Some (Obj_connect_out_args r0)) ∨
     (pending w' = pending w ++ [Pending_do_handshake Fn_on_handshake_done arg] ∧
      refs c' = refs c ∧
      sched_count (trace w') = sched_count (trace w) ∧
      heap w' !! slot = Some (Obj_connect_out_args r0)) ∨
     (pending w' = pending w ∧
      refs c' = refs c ∧
      sched_count (trace w') = S (sched_count (trace w)))).
Proof.
  intros Hc Hs.
  assert (slot ≠ arg) as Hne by (eapply connector_is_not_out_args; eauto).
  unfold connected, connector_ref, gpr_ref, grpc_endpoint_write,
    grpc_handshake_manager_do_handshake, update_connect_out_args,
    update_connector, GRPC_ERROR_REF, grpc_exec_ctx_sched.
  unfold_M. run_heap Hc.
  destruct (is_null (tcp c)); simpl.
  - destruct (heap w !! result c) as [[c0 | r | hs] |] eqn:Hr; run_heap Hr;
      try discriminate.
    try rewrite lookup_insert_ne by (eapply connector_is_not_out_args; eauto).
    run_heap Hc.
    intros [= <-]. eexists. split; [simpl; apply lookup_insert_eq |].
    right. right. split; [done |]. split; [done | count_sched].
  - destruct (GRPC_SLICE_IS_EMPTY (initial_connect_string (args c))); simpl.
    + intros [= <-]. eexists. split; [exact Hc |].
      right. left. split; [done |]. split; [done |].
      split; [count_sched | done].
    + run_heap Hc.
      intros [= <-]. eexists. split; [simpl; apply lookup_insert_eq |].
      left. split; [done |]. split; [done |]. split; [count_sched |].
      simpl. by rewrite !lookup_insert_ne by done.
Qed.

Lemma on_handshake_done_keeps (w w' : world) (endpoint : ptr)
    (args : option grpc_channel_args) (read_buffer user_data : ptr)
    (error : grpc_error) (c : connector) :
  heap w !! user_data = Some (Obj_connector c) →
  on_handshake_done endpoint args read_buffer user_data error w = Ok tt w' →
  ∃ c',
    heap w' !! user_data = Some (Obj_connector c') ∧
    refs c' = refs c ∧
    pending w' = pending w ∧
    sched_count (trace w') = S (sched_count (trace w)).
Proof.
  intros Hc.
  unfold on_handshake_done, grpc_channel_args_destroy, gpr_free,
    grpc_create_chttp2_transport, update_connect_out_args,
    grpc_chttp2_transport_start_reading, update_connector, grpc_exec_ctx_sched,
    GPR_ASSERT.
  unfold_M. destruct error as [| desc]; simpl.
  - run_heap Hc.
    destruct (heap w !! result c) as [[c0 | r | hs] |] eqn:Hr; run_heap Hr;
      try discriminate.
    destruct (is_null (chttp2_transport_of args endpoint 1)); run_heap Hr;
      try discriminate.
    try rewrite lookup_insert_ne by (eapply connector_is_not_out_args; eauto).
    run_heap Hc.
    intros [= <-]. eexists. split; [simpl; apply lookup_insert_eq |].
    split; [done |]. split; [done | count_sched].
  - destruct (decide (read_buffer = user_data)) as [-> | Hne].
    + rewrite lookup_delete_eq. simpl. discriminate.
    + rewrite lookup_delete_ne by done. run_heap Hc.
      intros [= <-]. eexists. split; [simpl; apply lookup_insert_eq |].
      split; [done |]. split; [done | count_sched].
Qed.

Lemma attempt_keeps_step (k : completion) (w w' : world) (con slot : ptr)
    (r0 : grpc_connect_out_args) (rc : Z) (b : nat) :
  rc ≠ 0 →
  attempt_keeps con slot r0 rc b w →
  deliver k w = Some (Ok tt w') →
  attempt_keeps con slot r0 rc b w'.
Proof.
  intros Hrc (c & Hc & Hst). unfold deliver.
  assert (heap w !! slot = Some (Obj_connect_out_args r0) → con ≠ slot)
    as Hne
    by (intros Hs; apply not_eq_sym; eapply connector_is_not_out_args; eauto).
  destruct Hst as [(Hp & Hr & Hs & Hslot) | [(Hp & Hr & Hs & Hslot)
                  | [(Hp & Hr & Hs & Hslot) | (Hp & Hr & Hs)]]];
    rewrite Hp; simpl.
  - destruct k; simpl; try discriminate.
    unfold grpc_closure_run, update_connector. unfold_M. run_heap Hc.
    intros [= H].
    eapply (connected_keeps _ _ con slot) in H;
      [| simpl; apply lookup_insert_eq
       | simpl; rewrite lookup_insert_ne by exact (Hne Hslot);
         exact Hslot].
    destruct H as (c' & Hc' & H). simpl in H.
    exists c'. split; [done |].
    destruct H as [(H1 & H2 & H3 & H4) | [(H1 & H2 & H3 & H4) | (H1 & H2 & H3)]].
    + right. left. repeat split; [done | lia | lia | done].
    + right. right. left. repeat split; [done | lia | lia | done].
    + right. right. right. split; [done |]. split; [lia |]. left. lia.
  - destruct k; simpl; try discriminate.
    unfold grpc_closure_run, on_initial_connect_string_sent. simpl.
    erewrite connector_unref_not_last; [| simpl; exact Hc | lia].
    intros [= <-]. eexists. split; [simpl; apply lookup_insert_eq |].
    right. right. right. simpl. split; [done |]. split; [lia |].
    right. split; [rewrite sched_count_app, Hs; cbn; lia |].
    rewrite lookup_insert_ne by exact (Hne Hslot). done.
  - destruct k; simpl; try discriminate.
    intros [= H].
    eapply on_handshake_done_keeps in H; [| simpl; exact Hc].
    destruct H as (c' & Hc' & H1 & H2 & H3). simpl in *.
    exists c'. split; [done |].
    right. right. right. split; [done |]. split; [lia |]. left. lia.
  - discriminate.
Qed.

Lemma attempt_keeps_run (ks : list completion) (w w2 : world) (con slot : ptr)
    (r0 : grpc_connect_out_args) (rc : Z) (b : nat) :
  rc ≠ 0 →
  attempt_keeps con slot r0 rc b w →
  run ks w = Some (Ok tt w2) →
  attempt_keeps con slot r0 rc b w2.
Proof.
  intros Hrc. revert w. induction ks as [| k ks IH]; intros w Hinv Hrun;
    simpl in Hrun.
  - by injection Hrun as <-.
  - destruct (deliver k w) as [[[] w1 | |] |] eqn:Hd; try discriminate.
    eapply IH; [| exact Hrun]. by eapply attempt_keeps_step.
Qed.

Lemma attempt_keeps_start (w : world) (con slot : ptr) (c : connector)
    (in_args : grpc_connect_in_args) (n : grpc_closure)
    (r0 : grpc_connect_out_args) :
  heap w !! con = Some (Obj_connector c) →
  heap w !! slot = Some (Obj_connect_out_args r0) →
  pending w = [] →
  attempt_keeps con slot r0 (refs c) (sched_count (trace w))
    (connecting_world con in_args slot n c w).
Proof.
  intros Hc Hs Hp.
  assert (slot ≠ con) as Hne by (eapply connector_is_not_out_args; eauto).
  eexists. split; [simpl; apply lookup_insert_eq |].
  left. simpl. rewrite Hp. split; [done |]. split; [done |].
  split; [count_sched |]. by rewrite lookup_insert_ne.
Qed.


(** X15: the caller's result slot is written only together with the
    notification: as long as an attempt has not scheduled the completion
    callback, whatever has completed so far, the slot holds what it held when
    connector_connect was called. *)
Theorem result_slot_untouched_before_notification (ks : list completion)
    (w w2 : world) (con slot : ptr) (c : connector)
    (in_args : grpc_connect_in_args) (n : grpc_closure)
    (r0 : grpc_connect_out_args) :
  heap w !! con = Some (Obj_connector c) →
  heap w !! slot = Some (Obj_connect_out_args r0) →
  pending w = [] →
  refs c ≠ 0 →
  run ks (connecting_world con in_args slot n c w) = Some (Ok tt w2) →
  sched_count (trace w2) = sched_count (trace w) →
  heap w2 !! slot = Some (Obj_connect_out_args r0).
Proof.
  intros Hc Hs Hp Hr Hrun Hcount.
  pose proof (attempt_keeps_start w con slot c in_args n r0 Hc Hs Hp) as Hinv.
  pose proof (attempt_keeps_run _ _ _ _ _ _ _ _ Hr Hinv Hrun) as (c2 & Hc2 & H).
  destruct H as [(_ & _ & _ & H) | [(_ & _ & _ & H) | [(_ & _ & _ & H)
                | (_ & _ & [H | [_ H]])]]]; try done.
  lia.
Qed.

(** ** Further properties of the factory and the entry point *)


Lemma grpc_insecure_channel_create_run (target : string)
    (args : option grpc_channel_args) (w : world) :
  let user := copy_arg_list (default [] args) (objects w) in
  let bag :=
    user.1 ++
    [ {| key := GRPC_ARG_SERVER_URI; value := GRPC_ARG_STRING target |};
      {| key := GRPC_ARG_CLIENT_CHANNEL_FACTORY;
         value := GRPC_ARG_POINTER client_channel_factory cc_factory_arg_vtable |} ] in
  let built := channel_of target (Some bag) GRPC_CLIENT_CHANNEL NULL in
  grpc_insecure_channel_create target args NULL w =
    Ok (Some (default (Lame_client_channel target GRPC_STATUS_INTERNAL
                         "Failed to create client channel") built))
       {| heap := heap w;
          objects := destroy_args (Some user.1) user.2;
          pending := pending w;
          trace := trace w ++
            [Ev_channel_create target (Some bag) GRPC_CLIENT_CHANNEL;
             Ev_channel_args_destroy (Some bag);
             Ev_exec_ctx_finish] ++
            match built with
            | Some _ => []
            | None =>
                [Ev_lame_client_channel_create target GRPC_STATUS_INTERNAL
                   "Failed to create client channel"]
            end |}.
Proof.
  intros user bag built.
  unfold grpc_insecure_channel_create, grpc_channel_args_copy_and_add,
    client_channel_factory_create_channel, grpc_channel_create,
    grpc_channel_args_destroy, grpc_client_channel_factory_unref,
    grpc_exec_ctx_finish, grpc_lame_client_channel_create, GPR_ASSERT.
  unfold_M. simpl.
  rewrite copy_arg_list_app. simpl. fold user. fold bag. fold built.
  assert (fold_left (λ o' x, destroy_arg x o') bag user.2 =
          fold_left (λ o' x, destroy_arg x o') user.1 user.2) as ->
    by (unfold bag; by rewrite fold_left_app).
  destruct built as [ch |]; simpl; by rewrite <- !app_assoc.
Qed.

(** X11: what grpc_insecure_channel_create does around the channel it returns.
    It creates the channel as a GRPC_CLIENT_CHANNEL for [target] from a copy of
    the caller's args followed by the server URI entry (holding [target]) and
    the client channel factory entry, destroys that copy afterwards, finishes
    the execution context, and creates a lame channel only when no channel
    was built; it changes nothing on the heap and starts no operation. *)
Theorem grpc_insecure_channel_create_effects (target : string)
    (args : option grpc_channel_args) (w : world) :
  let user := copy_arg_list (default [] args) (objects w) in
  let bag :=
    user.1 ++
    [ {| key := GRPC_ARG_SERVER_URI; value := GRPC_ARG_STRING target |};
      {| key := GRPC_ARG_CLIENT_CHANNEL_FACTORY;
         value := GRPC_ARG_POINTER client_channel_factory cc_factory_arg_vtable |} ] in
  let built := channel_of target (Some bag) GRPC_CLIENT_CHANNEL NULL in
  grpc_insecure_channel_create target args NULL w =
    Ok (Some (default (Lame_client_channel target GRPC_STATUS_INTERNAL
                         "Failed to create client channel") built))
       {| heap := heap w;
          objects := destroy_args (Some user.1) user.2;
          pending := pending w;
          trace := trace w ++
            [Ev_channel_create target (Some bag) GRPC_CLIENT_CHANNEL;
             Ev_channel_args_destroy (Some bag);
             Ev_exec_ctx_finish] ++
            match built with
            | Some _ => []
            | None =>
                [Ev_lame_client_channel_create target GRPC_STATUS_INTERNAL
                   "Failed to create client channel"]
            end |}.
Proof.
  intros user bag built.
  unfold grpc_insecure_channel_create, grpc_channel_args_copy_and_add,
    client_channel_factory_create_channel, grpc_channel_create,
    grpc_channel_args_destroy, grpc_client_channel_factory_unref,
    grpc_exec_ctx_finish, grpc_lame_client_channel_create, GPR_ASSERT.
  unfold_M. simpl.
  rewrite copy_arg_list_app. simpl. fold user. fold bag. fold built.
  assert (fold_left (λ o' x, destroy_arg x o') bag user.2 =
          fold_left (λ o' x, destroy_arg x o') user.1 user.2) as ->
    by (unfold bag; by rewrite fold_left_app).
  destruct built as [ch |]; simpl; by rewrite <- !app_assoc.
Qed.

(** X12: when the caller passes no args or only string and integer args,
    grpc_insecure_channel_create builds the channel from exactly those args
    followed by the server URI and the factory entry, and leaves the user's
    objects as they were: the factory vtable creates and frees nothing. *)
Theorem grpc_insecure_channel_create_plain_args (target : string)
    (args : option grpc_channel_args) (w : world) :
  forallb has_no_pointer (default [] args) = true →
  ∃ (ch : grpc_channel) (w' : world),
    grpc_insecure_channel_create target args NULL w = Ok (Some ch) w' ∧
    objects w' = objects w ∧
    heap w' = heap w ∧
    In (Ev_channel_create target
          (Some (default [] args ++
                 [ {| key := GRPC_ARG_SERVER_URI; value := GRPC_ARG_STRING target |};
                   {| key := GRPC_ARG_CLIENT_CHANNEL_FACTORY;
                      value := GRPC_ARG_POINTER client_channel_factory
                                 cc_factory_arg_vtable |} ]))
          GRPC_CLIENT_CHANNEL)
       (trace w').
Proof.
  intros Hplain.
  assert (∀ l o, forallb has_no_pointer l = true →
                 copy_arg_list l o = (l, o) ∧
                 fold_left (λ o' x, destroy_arg x o') l o = o) as Hcopy.
  { clear. induction l as [| x l IH]; intros o Hl; [done |].
    simpl in Hl. apply andb_prop in Hl as [Hx Hl].
    destruct (IH o Hl) as [IH1 IH2].
    assert (copy_arg x o = (x, o) ∧ destroy_arg x o = o) as [Hcx Hdx].
    { unfold copy_arg, destroy_arg. unfold has_no_pointer in Hx.
      by destruct (value x). }
    simpl. by rewrite Hcx, Hdx, IH1, IH2. }
  destruct (Hcopy _ (objects w) Hplain) as [Hc Hd].
  rewrite grpc_insecure_channel_create_run, Hc. simpl.
  eexists _, _. split; [reflexivity |]. simpl.
  split; [exact Hd |]. split; [reflexivity |].
  rewrite !in_app_iff; simpl; auto 10.
Qed.


End Channel_create.

(** ** The theorems at concrete inputs *)

(** The dropped attempt on the sample heap: connect to endpoint 55 with the
    initial connect string "x", then a successful write. *)
Lemma initial_string_attempt_never_notifies_witness :
  ∃ w1 w2 c2,
    connector_connect 100%N sample_in_args_hello 300%N (Some sample_closure)
      sample_world = Ok tt w1 ∧
    run sample_transport_of
      [Tcp_client_connect_done 55%N GRPC_ERROR_NONE;
       Endpoint_write_done GRPC_ERROR_NONE] w1 = Some (Ok tt w2) ∧
    (∀ k, deliver sample_transport_of k w2 = None) ∧
    sched_count (trace w2) = sched_count (trace sample_world) ∧
    heap w2 !! 100%N = Some (Obj_connector c2) ∧
    notify c2 = Some sample_closure.
Proof.
  apply (initial_string_attempt_never_notifies sample_transport_of sample_world
           100%N sample_connector sample_in_args_hello 300%N sample_closure
           55%N GRPC_ERROR_NONE GRPC_ERROR_NONE);
    [reflexivity | reflexivity | discriminate | reflexivity | discriminate
    | discriminate | discriminate].
Defined.

(** The same attempt with a failing write. *)
Lemma initial_string_write_never_handshakes_witness :
  ∃ w1 w2,
    connector_connect 100%N sample_in_args_hello 300%N (Some sample_closure)
      sample_world = Ok tt w1 ∧
    run sample_transport_of
      [Tcp_client_connect_done 55%N GRPC_ERROR_NONE;
       Endpoint_write_done (GRPC_ERROR_CREATE "write failed")] w1 =
      Some (Ok tt w2) ∧
    pending w2 = [] ∧
    trace w2 = trace sample_world ++
      [Ev_tcp_client_connect {| cb := Some Fn_connected; cb_arg := 100%N |} 100%N
         600%N (channel_args sample_in_args_hello) 700%N sample_deadline;
       Ev_gpr_ref 100%N;
       Ev_endpoint_write 55%N [[Byte.x78]]
         {| cb := Some Fn_on_initial_connect_string_sent; cb_arg := 100%N |};
       Ev_gpr_unref 100%N] ∧
    do_handshake_count (trace w2) = do_handshake_count (trace sample_world).
Proof.
  apply (initial_string_write_never_handshakes sample_transport_of sample_world
           100%N sample_connector sample_in_args_hello 300%N sample_closure
           55%N GRPC_ERROR_NONE (GRPC_ERROR_CREATE "write failed"));
    [reflexivity | reflexivity | discriminate | reflexivity | discriminate
    | discriminate | discriminate].
Defined.

(** A successful handshake on the sample heap. *)
Lemma on_handshake_done_success_witness :
  on_handshake_done sample_transport_of 56%N (channel_args sample_in_args) 77%N
    100%N GRPC_ERROR_NONE sample_world_handshaking =
    Ok tt
      {| heap := <[100%N := Obj_connector (set_notify None sample_connector_handshaking)]>
                 (<[300%N := Obj_connect_out_args
                      {| out_transport := 900%N;
                         out_channel_args := channel_args sample_in_args |}]>
                    (heap sample_world_handshaking));
         objects := ∅;
         pending := [Pending_do_handshake Fn_on_handshake_done 100%N];
         trace := [Ev_create_chttp2_transport (channel_args sample_in_args) 56%N 1;
                   Ev_chttp2_transport_start_reading 900%N 77%N;
                   Ev_exec_ctx_sched (Some sample_closure) GRPC_ERROR_NONE] |}.
Proof.
  apply (on_handshake_done_success sample_transport_of sample_world_handshaking
           56%N (channel_args sample_in_args) 77%N 100%N
           sample_connector_handshaking
           {| out_transport := 5%N; out_channel_args := None |});
    reflexivity.
Defined.

(** A refused connect on the sample heap. *)
Lemma connect_failure_reports_error_witness :
  ∃ w1,
    connector_connect 100%N sample_in_args 300%N (Some sample_closure)
      sample_world = Ok tt w1 ∧
    run sample_transport_of
      [Tcp_client_connect_done NULL (GRPC_ERROR_CREATE "connection refused")] w1 =
      Some (Ok tt
        {| heap := <[100%N := Obj_connector
                       (set_notify None
                          (connecting 100%N sample_in_args 300%N sample_closure
                             sample_connector))]>
                   (<[300%N := Obj_connect_out_args grpc_connect_out_args_zero]>
                      (heap sample_world));
           objects := ∅;
           pending := [];
           trace :=
             [Ev_tcp_client_connect {| cb := Some Fn_connected; cb_arg := 100%N |}
                100%N 600%N (channel_args sample_in_args) 700%N sample_deadline;
              Ev_error_ref (GRPC_ERROR_CREATE "connection refused");
              Ev_exec_ctx_sched (Some sample_closure)
                (GRPC_ERROR_CREATE "connection refused")] |}).
Proof.
  apply (connect_failure_reports_error sample_transport_of sample_world 100%N
           sample_connector sample_in_args 300%N
           {| out_transport := 5%N; out_channel_args := None |}
           sample_closure (GRPC_ERROR_CREATE "connection refused"));
    [reflexivity | reflexivity | reflexivity | discriminate | reflexivity].
Defined.

(** A handshake refused by the proxy, on the sample heap. *)
Lemma on_handshake_done_error_witness :
  on_handshake_done sample_transport_of NULL (channel_args sample_in_args) 77%N
    100%N (GRPC_ERROR_CREATE "proxy refused") sample_world_handshaking =
    Ok tt
      {| heap := <[100%N := Obj_connector (set_notify None sample_connector_handshaking)]>
                 (delete 77%N (heap sample_world_handshaking));
         objects := destroy_args (channel_args sample_in_args) ∅;
         pending := [Pending_do_handshake Fn_on_handshake_done 100%N];
         trace := [Ev_channel_args_destroy (channel_args sample_in_args);
                   Ev_gpr_free 77%N;
                   Ev_exec_ctx_sched (Some sample_closure)
                     (GRPC_ERROR_CREATE "proxy refused")] |}.
Proof.
  apply (on_handshake_done_error sample_transport_of sample_world_handshaking
           NULL (channel_args sample_in_args) 77%N 100%N
           sample_connector_handshaking (GRPC_ERROR_CREATE "proxy refused"));
    [reflexivity | discriminate | discriminate].
Defined.

(** A first connect on the idle sample connector goes through; a second one
    aborts. *)
Lemma connector_connect_preconditions_witness :
  connector_connect 100%N sample_in_args 300%N (Some sample_closure) sample_world =
    Ok tt (connecting_world 100%N sample_in_args 300%N sample_closure
             sample_connector sample_world) ∧
  ∀ (in_args' : grpc_connect_in_args) (result' : ptr)
    (notify' : option grpc_closure),
    connector_connect 100%N in_args' result' notify'
      (connecting_world 100%N sample_in_args 300%N sample_closure
         sample_connector sample_world) = Abort.
Proof.
  apply (connector_connect_preconditions sample_world 100%N sample_connector
           sample_in_args 300%N sample_closure).
  reflexivity.
Defined.

(** The reference taken for the write of "x" and dropped by its failed
    completion: the count goes from 1 to 2 and back to 1. *)
Lemma initial_write_holds_reference_witness :
  connected 100%N GRPC_ERROR_NONE sample_world_connected_hello =
    Ok tt
      {| heap := <[100%N := Obj_connector
                     (writing_initial_bytes 100%N sample_connector_connected_hello)]>
                 (heap sample_world_connected_hello);
         objects := ∅;
         pending := [Pending_endpoint_write
                       {| cb := Some Fn_on_initial_connect_string_sent;
                          cb_arg := 100%N |}];
         trace := [Ev_gpr_ref 100%N;
                   Ev_endpoint_write 55%N [[Byte.x78]]
                     {| cb := Some Fn_on_initial_connect_string_sent;
                        cb_arg := 100%N |}] |} ∧
  refs (writing_initial_bytes 100%N sample_connector_connected_hello) = 2 ∧
  on_initial_connect_string_sent 100%N (GRPC_ERROR_CREATE "write failed")
      {| heap := <[100%N := Obj_connector
                     (writing_initial_bytes 100%N sample_connector_connected_hello)]>
                 (heap sample_world_connected_hello);
         objects := ∅;
         pending := [Pending_endpoint_write
                       {| cb := Some Fn_on_initial_connect_string_sent;
                          cb_arg := 100%N |}];
         trace := [Ev_gpr_ref 100%N;
                   Ev_endpoint_write 55%N [[Byte.x78]]
                     {| cb := Some Fn_on_initial_connect_string_sent;
                        cb_arg := 100%N |}] |} =
    Ok tt
      {| heap := <[100%N := Obj_connector
                     (set_refs 1
                        (writing_initial_bytes 100%N sample_connector_connected_hello))]>
                 (heap sample_world_connected_hello);
         objects := ∅;
         pending := [Pending_endpoint_write
                       {| cb := Some Fn_on_initial_connect_string_sent;
                          cb_arg := 100%N |}];
         trace := [Ev_gpr_ref 100%N;
                   Ev_endpoint_write 55%N [[Byte.x78]]
                     {| cb := Some Fn_on_initial_connect_string_sent;
                        cb_arg := 100%N |};
                   Ev_gpr_unref 100%N] |}.
Proof.
  apply (initial_write_holds_reference sample_world_connected_hello 100%N
           sample_connector_connected_hello GRPC_ERROR_NONE
           (GRPC_ERROR_CREATE "write failed"));
    [reflexivity | discriminate | discriminate].
Defined.

(** ** The further properties at concrete inputs *)

(** The sample schedule on the sample heap schedules one closure. *)
Lemma attempt_notifies_at_most_once_witness :
  (sched_count (trace sample_world_done) ≤ S (sched_count (trace sample_world)))%nat.
Proof.
  apply (attempt_notifies_at_most_once sample_transport_of sample_schedule
           sample_world sample_world_done 100%N sample_connector sample_in_args
           300%N sample_closure);
    reflexivity.
Defined.

(** An attempt on the sample heap whose handshake is refused. *)
Lemma plain_attempt_notifies_once_witness :
  ∃ w2 c2,
    run sample_transport_of
      [Tcp_client_connect_done 55%N GRPC_ERROR_NONE;
       Handshake_done NULL None 77%N (GRPC_ERROR_CREATE "proxy refused")]
      (connecting_world 100%N sample_in_args 300%N sample_closure
         sample_connector sample_world) = Some (Ok tt w2) ∧
    pending w2 = [] ∧
    sched_count (trace w2) = S (sched_count (trace sample_world)) ∧
    In (Ev_exec_ctx_sched (Some sample_closure) (GRPC_ERROR_CREATE "proxy refused"))
       (trace w2) ∧
    heap w2 !! 100%N = Some (Obj_connector c2) ∧
    notify c2 = None.
Proof.
  apply (plain_attempt_notifies_once sample_transport_of sample_world 100%N
           sample_connector sample_in_args 300%N
           {| out_transport := 5%N; out_channel_args := None |} sample_closure
           55%N NULL 77%N None GRPC_ERROR_NONE (GRPC_ERROR_CREATE "proxy refused"));
    [reflexivity | reflexivity | reflexivity | discriminate | reflexivity
    | discriminate | left; discriminate].
Defined.

(** The sample attempt up to the start of the handshake; the connect reports
    an error along with endpoint 55. *)
Lemma plain_attempt_starts_handshake_witness :
  ∃ w1,
    connector_connect 100%N sample_in_args 300%N (Some sample_closure)
      sample_world = Ok tt w1 ∧
    run sample_transport_of
      [Tcp_client_connect_done 55%N (GRPC_ERROR_CREATE "ignored")] w1 =
      Some (Ok tt
        {| heap := <[100%N := Obj_connector sample_connector_handshaking]>
                   (heap sample_world);
           objects := ∅;
           pending := [Pending_do_handshake Fn_on_handshake_done 100%N];
           trace :=
             [Ev_tcp_client_connect {| cb := Some Fn_connected; cb_arg := 100%N |}
                100%N 600%N (channel_args sample_in_args) 700%N sample_deadline;
              Ev_handshake_manager_do_handshake 200%N 55%N
                (channel_args sample_in_args) sample_deadline NULL
                Fn_on_handshake_done 100%N] |}).
Proof.
  apply (plain_attempt_starts_handshake sample_transport_of sample_world 100%N
           sample_connector sample_in_args 300%N sample_closure 55%N
           (GRPC_ERROR_CREATE "ignored"));
    [reflexivity | reflexivity | discriminate | reflexivity | discriminate
    | reflexivity].
Defined.

(** The sample schedule run on the sample heap. *)
Lemma plain_attempt_delivers_transport_witness :
  run sample_transport_of sample_schedule
    (connecting_world 100%N sample_in_args 300%N sample_closure
       sample_connector sample_world) =
    Some (Ok tt
      {| heap := <[100%N := Obj_connector
                     (set_notify None sample_connector_handshaking)]>
                 (<[300%N := Obj_connect_out_args
                      {| out_transport := 900%N;
                         out_channel_args := channel_args sample_in_args |}]>
                    (heap sample_world));
         objects := ∅;
         pending := [];
         trace :=
           [Ev_tcp_client_connect {| cb := Some Fn_connected; cb_arg := 100%N |}
              100%N 600%N (channel_args sample_in_args) 700%N sample_deadline;
            Ev_handshake_manager_do_handshake 200%N 55%N
              (channel_args sample_in_args) sample_deadline NULL
              Fn_on_handshake_done 100%N;
            Ev_create_chttp2_transport (channel_args sample_in_args) 56%N 1;
            Ev_chttp2_transport_start_reading 900%N 77%N;
            Ev_exec_ctx_sched (Some sample_closure) GRPC_ERROR_NONE] |}).
Proof.
  apply (plain_attempt_delivers_transport sample_transport_of sample_world 100%N
           sample_connector sample_in_args 300%N
           {| out_transport := 5%N; out_channel_args := None |} sample_closure
           55%N 56%N 77%N (channel_args sample_in_args) GRPC_ERROR_NONE);
    [reflexivity | reflexivity | reflexivity | discriminate | reflexivity
    | discriminate].
Defined.

(** After the refused handshake the sample connector accepts a connect. *)
Lemma on_handshake_done_leaves_idle_witness :
  ∃ c',
    heap sample_world_refused !! 100%N = Some (Obj_connector c') ∧
    notify c' = None ∧
    connector_connect 100%N sample_in_args_hello 300%N
      (Some {| cb := Some (Fn_external 4096%N); cb_arg := 1%N |})
      sample_world_refused =
      Ok tt (connecting_world 100%N sample_in_args_hello 300%N
               {| cb := Some (Fn_external 4096%N); cb_arg := 1%N |} c'
               sample_world_refused).
Proof.
  apply (on_handshake_done_leaves_idle sample_transport_of
           sample_world_handshaking sample_world_refused NULL None 77%N 100%N
           (GRPC_ERROR_CREATE "proxy refused") sample_in_args_hello 300%N
           (Fn_external 4096%N) 1%N).
  reflexivity.
Defined.

(** A refused connect on the sample heap, then a second connect. *)
Lemma connect_failure_allows_retry_witness :
  ∃ w2 c2,
    run sample_transport_of
      [Tcp_client_connect_done NULL (GRPC_ERROR_CREATE "connection refused")]
      (connecting_world 100%N sample_in_args 300%N sample_closure
         sample_connector sample_world) = Some (Ok tt w2) ∧
    connector_connect 100%N sample_in_args_hello 300%N (Some sample_closure) w2 =
      Ok tt (connecting_world 100%N sample_in_args_hello 300%N sample_closure
               c2 w2) ∧
    pending (connecting_world 100%N sample_in_args_hello 300%N sample_closure
               c2 w2) =
      [Pending_tcp_client_connect {| cb := Some Fn_connected; cb_arg := 100%N |}
         100%N].
Proof.
  apply (connect_failure_allows_retry sample_transport_of sample_world 100%N
           sample_connector sample_in_args sample_in_args_hello 300%N 300%N
           {| out_transport := 5%N; out_channel_args := None |}
           sample_closure sample_closure
           (GRPC_ERROR_CREATE "connection refused"));
    [reflexivity | reflexivity | reflexivity | discriminate].
Defined.

(** The dropped attempt on the sample heap, then any connect. *)
Lemma dropped_attempt_blocks_connector_witness :
  ∃ w2,
    run sample_transport_of
      [Tcp_client_connect_done 55%N GRPC_ERROR_NONE;
       Endpoint_write_done GRPC_ERROR_NONE]
      (connecting_world 100%N sample_in_args_hello 300%N sample_closure
         sample_connector sample_world) = Some (Ok tt w2) ∧
    ∀ (in_args' : grpc_connect_in_args) (result' : ptr)
      (notify' : option grpc_closure),
      connector_connect 100%N in_args' result' notify' w2 = Abort.
Proof.
  apply (dropped_attempt_blocks_connector sample_transport_of sample_world 100%N
           sample_connector sample_in_args_hello 300%N sample_closure 55%N
           GRPC_ERROR_NONE GRPC_ERROR_NONE);
    [reflexivity | reflexivity | discriminate | discriminate | discriminate].
Defined.

(** One reference taken and dropped on the sample connector. *)
Lemma connector_ref_unref_restores_witness :
  (connector_ref 100%N;; connector_unref 100%N) sample_world =
    Ok tt (set_trace [Ev_gpr_ref 100%N; Ev_gpr_unref 100%N] sample_world).
Proof.
  apply (connector_ref_unref_restores sample_world 100%N sample_connector);
    [reflexivity | discriminate].
Defined.

(** Two references: the first unref keeps the connector, the second frees
    it. *)
Lemma connector_freed_by_last_unref_witness :
  connector_unref_n 1 100%N sample_world_two_refs =
    Ok tt {| heap := <[100%N := Obj_connector
                         (set_refs 1 (set_refs 2 sample_connector))]>
                     (heap sample_world_two_refs);
             objects := ∅;
             pending := [];
             trace := [Ev_gpr_unref 100%N] |} ∧
  connector_unref_n 2 100%N sample_world_two_refs =
    Ok tt {| heap := delete 100%N (delete 200%N
                       (<[100%N := Obj_connector
                            (set_refs 0 (set_refs 2 sample_connector))]>
                          (heap sample_world_two_refs)));
             objects := ∅;
             pending := [];
             trace := [Ev_gpr_unref 100%N; Ev_gpr_unref 100%N;
                       Ev_handshake_manager_destroy 200%N;
                       Ev_gpr_free 100%N] |}.
Proof.
  apply (connector_freed_by_last_unref 1 sample_world_two_refs 100%N
           (set_refs 2 sample_connector));
    reflexivity.
Defined.

(** No caller args: the channel is built from the two added entries. *)
Lemma grpc_insecure_channel_create_plain_args_witness :
  ∃ (ch : grpc_channel) (w' : world),
    grpc_insecure_channel_create (Some "proxy:8080"%string) sample_channel_of
      4242%N "grpc.server_uri" "grpc.client_channel_factory" "host:443" None
      NULL sample_world = Ok (Some ch) w' ∧
    objects w' = objects sample_world ∧
    heap w' = heap sample_world ∧
    In (Ev_channel_create "host:443"
          (Some [ {| key := "grpc.server_uri";
                     value := GRPC_ARG_STRING "host:443" |};
                  {| key := "grpc.client_channel_factory";
                     value := GRPC_ARG_POINTER 4242%N cc_factory_arg_vtable |} ])
          GRPC_CLIENT_CHANNEL)
       (trace w').
Proof.
  apply (grpc_insecure_channel_create_plain_args (Some "proxy:8080"%string)
           sample_channel_of 4242%N "grpc.server_uri"
           "grpc.client_channel_factory" "host:443" None sample_world).
  reflexivity.
Defined.



(** While the handshake is pending the sample result slot is as it was. *)
Lemma result_slot_untouched_before_notification_witness :
  heap sample_world_handshake_pending !! 300%N =
    Some (Obj_connect_out_args {| out_transport := 5%N; out_channel_args := None |}).
Proof.
  apply (result_slot_untouched_before_notification sample_transport_of
           [Tcp_client_connect_done 55%N GRPC_ERROR_NONE] sample_world
           sample_world_handshake_pending 100%N 300%N sample_connector
           sample_in_args sample_closure
           {| out_transport := 5%N; out_channel_args := None |});
    [reflexivity | reflexivity | reflexivity | discriminate | reflexivity
    | reflexivity].
Defined.
